(** * EVBox HomeLine stand-alone: bus protocol stack

    A shallow embedding of the Python sources

      - [software/packet.py]   (module [packet]),
      - [software/frame.py]    (module [frame]),
      - [software/config.py]   (module [config]),
      - [software/manager.py]  (module [manager], imported as [cb_manager]),
      - [software/main.py]     (module [main]),

    together with the properties of the framing layer, the packet decoder,
    the ChargePoint actor and the frame scanner.

    Conventions.
      - [bytes] objects are [list byte]; [str] objects are [string].
      - Python integers that are never negative are [N]; time stamps are [Z].
      - An exception is a value of [exn]; fallible pure code lives in
        [outcome], code that also touches the process state lives in [M].
      - [datetime.datetime.now()] reads a virtual clock kept in the process
        state; only [time.sleep] advances it.
      - The text written by [Packet._print] is not modelled, only the
        exceptions it raises; the [print] calls of [main.find_frames] and of
        [CP.respond] are recorded as [event]s.
      - The built-ins follow Python 3.11, which the sources need:
        [int.from_bytes] is big-endian when no byte order is given, and a
        ['0'] before the width in the format of a [str] fills on the
        right. *)

From Stdlib Require Import List Bool Arith NArith ZArith Lia.
From Stdlib.Strings Require Import Ascii String Byte.
Import ListNotations.

Local Open Scope string_scope.
Local Open Scope list_scope.
Local Open Scope N_scope.

Set Implicit Arguments.

(* ------------------------------------------------------------------ *)
(** ** Exceptions *)

(** One schema complaint accumulated by [Packet._print]. *)
Inductive schema_error : Type :=
| InvalidMessageLength (length expected : nat)
| MessageTooShort (length least : nat)
| InvalidState (state : N)
| NoResponse (cmd : string).

(** One complaint accumulated by [Frame._validate]. *)
Inductive frame_error : Type :=
| InvalidFrameLength (length : nat)
| InvalidStart (start : list byte)
| InvalidEnd (stop : list byte)
| StartInsidePayload
| EndInsidePayload
| InvalidPayloadValue (b : byte)
| InvalidChecksum
| InvalidParity.

(** What a [ValueError] carries.  [UnicodeDecodeError] and
    [UnicodeEncodeError] are subclasses of [ValueError] in Python. *)
Inductive value_error : Type :=
| FromHex (s : string)
| Schema (errors : list schema_error)
| FrameInvalid (errors : list frame_error) (frame : list byte)
| UnicodeDecode
| UnicodeEncode.

Inductive exn : Type :=
| ValueError (why : value_error)
| AttributeError.

Inductive outcome (A : Type) : Type :=
| Ok (a : A)
| Raise (e : exn).
Arguments Ok {A} a.
Arguments Raise {A} e.

Definition obind {A B} (m : outcome A) (k : A -> outcome B) : outcome B :=
  match m with
  | Ok a => k a
  | Raise e => Raise e
  end.

Declare Scope outcome_scope.
Delimit Scope outcome_scope with outcome.
Notation "x <- m ;; k" := (obind m (fun x => k))
  (at level 61, m at next level, right associativity) : outcome_scope.
Notation "m ;;; k" := (obind m (fun _ => k))
  (at level 61, right associativity) : outcome_scope.

(* ------------------------------------------------------------------ *)
(** ** Python built-ins used by the sources *)

Module py.

(** [s[a:b]] on a [str], for the non-negative bounds the sources use. *)
Definition str_slice (a b : nat) (s : string) : string :=
  substring a (b - a) s.

(** [s[a:]] on a [str]. *)
Definition str_from (a : nat) (s : string) : string :=
  substring a (String.length s - a) s.

(** Resolution of one slice bound against a sequence of length [len]. *)
Definition bound (len i : Z) : Z :=
  if (i <? 0)%Z then Z.max 0 (len + i) else Z.min len i.

(** [l[start:stop]] on a [bytes]; [None] is an omitted bound. *)
Definition slice {A} (start stop : option Z) (l : list A) : list A :=
  let len := Z.of_nat (List.length l) in
  let a := match start with None => 0%Z | Some i => bound len i end in
  let b := match stop with None => len | Some j => bound len j end in
  firstn (Z.to_nat (b - a)) (skipn (Z.to_nat a) l).

Definition byte_eqb (x y : byte) : bool := Byte.eqb x y.

Fixpoint bytes_eqb (x y : list byte) : bool :=
  match x, y with
  | [], [] => true
  | a :: x', b :: y' => byte_eqb a b && bytes_eqb x' y'
  | _, _ => false
  end.

Fixpoint startswith (sub data : list byte) : bool :=
  match sub, data with
  | [], _ => true
  | a :: sub', b :: data' => byte_eqb a b && startswith sub' data'
  | _ :: _, [] => false
  end.

(** [data.find(sub)]: lowest index at which [sub] occurs, [-1] if none. *)
Fixpoint find (sub data : list byte) : Z :=
  if startswith sub data then 0%Z
  else match data with
       | [] => (-1)%Z
       | _ :: data' =>
           let k := find sub data' in
           if (k <? 0)%Z then (-1)%Z else (k + 1)%Z
       end.

(** [sub in data] for a one-byte [sub]. *)
Definition contains (b : byte) (data : list byte) : bool :=
  existsb (byte_eqb b) data.

(** [sum(payload)]. *)
Definition sum (payload : list byte) : N :=
  fold_left (fun acc b => acc + Byte.to_N b) payload 0.

Definition hex_digit (d : N) : ascii :=
  if d <? 10 then ascii_of_N (48 + d) else ascii_of_N (55 + d).

Fixpoint hex_digits (fuel : nat) (n : N) (acc : string) : string :=
  match fuel with
  | O => acc
  | S fuel' =>
      let acc' := String (hex_digit (n mod 16)) acc in
      if n / 16 =? 0 then acc' else hex_digits fuel' (n / 16) acc'
  end.

(** [f"{n:X}"]: upper-case hexadecimal without padding. *)
Definition hex (n : N) : string := hex_digits (S (N.size_nat n)) n "".

Fixpoint repeat_char (c : ascii) (k : nat) : string :=
  match k with
  | O => ""
  | S k' => String c (repeat_char c k')
  end.

(** [f"{n:0wX}"] for a non-negative integer: zeros go on the left. *)
Definition format_0X (w : nat) (n : N) : string :=
  let d := hex n in
  repeat_char "0" (w - String.length d) ++ d.

(** [f"{z:0wX}"] for any integer: the sign counts towards the width. *)
Definition format_0X_int (w : nat) (z : Z) : string :=
  if (z <? 0)%Z
  then String "-" (format_0X (w - 1) (Z.to_N (- z)))
  else format_0X w (Z.to_N z).

(** [f"{s:0w}"] for a [str]: fill character ['0'], text on the left. *)
Definition format_0str (w : nat) (s : string) : string :=
  s ++ repeat_char "0" (w - String.length s).

Definition is_ascii (c : ascii) : bool := N_of_ascii c <? 128.

Fixpoint all_ascii (s : string) : bool :=
  match s with
  | EmptyString => true
  | String c s' => is_ascii c && all_ascii s'
  end.

(** [s.encode("ascii")]. *)
Definition encode_ascii (s : string) : outcome (list byte) :=
  if all_ascii s then Ok (list_byte_of_string s)
  else Raise (ValueError UnicodeEncode).

(** [b.decode("ascii")]. *)
Definition decode_ascii (b : list byte) : outcome string :=
  if forallb (fun x => Byte.to_N x <? 128) b then Ok (string_of_list_byte b)
  else Raise (ValueError UnicodeDecode).

Definition hex_val (c : ascii) : option N :=
  let n := N_of_ascii c in
  if (48 <=? n) && (n <=? 57) then Some (n - 48)
  else if (65 <=? n) && (n <=? 70) then Some (n - 55)
  else if (97 <=? n) && (n <=? 102) then Some (n - 87)
  else None.

(** ASCII white space, which [bytes.fromhex] skips between bytes. *)
Definition is_space (c : ascii) : bool :=
  let n := N_of_ascii c in
  (n =? 32) || ((9 <=? n) && (n <=? 13)).

(** [bytes.fromhex]: [top] is the pending high nibble, if any. *)
Fixpoint fromhex_go (top : option N) (s : string) : option (list N) :=
  match s with
  | EmptyString => match top with None => Some [] | Some _ => None end
  | String c s' =>
      match top with
      | None =>
          if is_space c then fromhex_go None s'
          else match hex_val c with
               | Some t => fromhex_go (Some t) s'
               | None => None
               end
      | Some t =>
          match hex_val c with
          | Some b => option_map (cons (t * 16 + b)) (fromhex_go None s')
          | None => None
          end
      end
  end.

Definition fromhex (s : string) : outcome (list N) :=
  match fromhex_go None s with
  | Some l => Ok l
  | None => Raise (ValueError (FromHex s))
  end.

(** [int.from_bytes(b)], big-endian by default. *)
Definition int_from_bytes (b : list N) : N :=
  fold_left (fun acc x => acc * 256 + x) b 0.

(** The idiom [int.from_bytes(bytes.fromhex(s))]. *)
Definition hexint (s : string) : outcome N :=
  (b <- fromhex s ;; Ok (int_from_bytes b))%outcome.

End py.

(* ------------------------------------------------------------------ *)
(** ** packet.py *)

Module packet.

Definition ADDR_NEW : N := 0x00.
Definition ADDR_CHARGER : N := 0x01.
Definition ADDR_CP : N := 0x80.
Definition ADDR_BROADCAST : N := 0xBC.
Definition ADDR_CHARGESTATION : N := 0xFD.

Record Packet : Type := mkPacket {
  dst : N;
  src : N;
  cmd : N;
  dat : string
}.

(** [Packet()]. *)
Definition new : Packet := mkPacket 0 0 0 "".

Section print.

Variable self : Packet.

Let length : nat := String.length (dat self).

(** [int.from_bytes(bytes.fromhex(self.dat[a:b]))]. *)
Definition field (a b : nat) : outcome N :=
  py.hexint (py.str_slice a b (dat self)).

(** The same conversion for several fields in a row, values dropped
    (they only feed the text that is printed). *)
Fixpoint fields (l : list (nat * nat)) : outcome unit :=
  match l with
  | [] => Ok tt
  | (a, b) :: l' => (field a b ;;; fields l')%outcome
  end.

(** [if length != n: error += "Invalid message length ..."]. *)
Definition expect (n : nat) : list schema_error :=
  if Nat.eqb length n then []
  else [InvalidMessageLength length n].

Definition no_response (c : string) : outcome (list schema_error) :=
  Ok [NoResponse c].

(** The [if]/[elif] chain of [Packet._print] over [self.cmd]: the schema
    complaints it accumulates in [error], or the exception raised by a
    [bytes.fromhex] on the way. *)
Definition schema : outcome (list schema_error) :=
  let c := cmd self in
  let to_cp := dst self =? ADDR_CP in
  let from_cp := src self =? ADDR_CP in
  (if c =? 0x11 then
     if to_cp then Ok (expect 15) else Ok (expect 11)
   else if c =? 0x13 then
     if from_cp then Ok (expect 0)
     else
       let e1 := if (length <? 4)%nat
                 then [MessageTooShort length 4] else [] in
       state <- field 0 4 ;;
       if state =? 0xAA00 then
         fields [(4, 6); (22, 24); (56, 60)]%nat ;;;
         Ok (e1 ++ expect 64)
       else if state =? 0x0055 then Ok (e1 ++ expect 4)
       else Ok (e1 ++ [InvalidState state])
   else if c =? 0x18 then
     if from_cp then fields [(0, 2)]%nat ;;; Ok (expect 2)
     else no_response "18"
   else if c =? 0x1B then
     if from_cp then Ok (expect 10) else no_response "1B"
   else if c =? 0x1C then
     if from_cp then fields [(0, 2)]%nat ;;; Ok (expect 2)
     else no_response "1C"
   else if c =? 0x1E then
     if from_cp then Ok (expect 0) else no_response "1E"
   else if c =? 0x21 then
     if to_cp then Ok (expect 0) else Ok (expect 0)
   else if c =? 0x22 then
     let e := if to_cp then expect 26 else expect 30 in
     fields [(0, 2); (2, 4)]%nat ;;; Ok e
   else if c =? 0x23 then
     if to_cp then fields [(0, 2); (24, 32)]%nat ;;; Ok (expect 32)
     else fields [(2, 10); (10, 18)]%nat ;;; Ok (expect 18)
   else if c =? 0x24 then
     if to_cp then
       fields [(0, 2); (32, 40); (42, 50); (24, 32)]%nat ;;; Ok (expect 50)
     else Ok (expect 2)
   else if c =? 0x26 then
     if to_cp then
       fields [(0, 2); (6, 8); (8, 10); (10, 12); (12, 14); (18, 26);
               (30, 32); (52, 56); (58, 66); (68, 72); (72, 76); (76, 80);
               (80, 84); (84, 88); (88, 92); (92, 96); (96, 100);
               (100, 104); (104, 108); (124, 128); (128, 132)]%nat ;;;
       Ok (expect 132)
     else fields [(0, 8); (8, 16)]%nat ;;; Ok (expect 16)
   else if c =? 0x2A then Ok []
   else if c =? 0x31 then
     if from_cp then fields [(0, 2)]%nat ;;; Ok (expect 24)
     else fields [(0, 2)]%nat ;;; Ok (expect 2)
   else if c =? 0x32 then
     if from_cp then fields [(0, 8)]%nat ;;; Ok (expect 8)
     else fields [(0, 2)]%nat ;;; Ok (expect 2)
   else if c =? 0x33 then
     if from_cp then Ok (expect 0)
     else
       fields [(20, 24); (30, 32); (36, 38); (54, 56); (66, 68)]%nat ;;;
       Ok (if Nat.eqb length 74 || Nat.eqb length 78 then []
           else [InvalidMessageLength length 74])
   else if c =? 0x34 then
     if from_cp then
       fields [(8, 10); (16, 18); (38, 40); (58, 66); (74, 76)]%nat ;;;
       Ok (expect 86)
     else Ok (expect 4)
   else if c =? 0x35 then
     if from_cp then Ok [] else no_response "35"
   else if c =? 0x36 then Ok []
   else if c =? 0x37 then Ok []
   else if c =? 0x38 then Ok []
   else if c =? 0x41 then Ok []
   else if c =? 0x42 then
     if from_cp then Ok (expect 7) else Ok (expect 7)
   else if c =? 0x43 then
     if from_cp then Ok (expect 0) else Ok (expect 18)
   else if c =? 0x65 then
     if from_cp then fields [(0, 4)]%nat ;;; Ok (expect 4)
     else no_response "65"
   else if c =? 0x66 then
     if to_cp then
       fields [(0, 4); (4, 8); (8, 12); (12, 16); (16, 20); (20, 24);
               (24, 28); (28, 32); (32, 36); (36, 44)]%nat ;;;
       Ok (expect 44)
     else Ok (expect 0)
   else if c =? 0x6A then
     if to_cp then fields [(0, 2)]%nat ;;; Ok (expect 4)
     else fields [(0, 4)]%nat ;;; Ok (expect 4)
   else if c =? 0x6B then
     if from_cp then
       fields [(2, 6); (6, 10); (10, 14); (14, 18)]%nat ;;; Ok (expect 18)
     else Ok (expect 0)
   else
     (* 0x6C, 0xE1 .. 0xFD and every other value: names only *)
     Ok [])%outcome.

(** [Packet._print]: the leading [foo = int.from_bytes(...)], the chain
    above, and the final [if error: raise ValueError(error)]. *)
Definition _print : outcome unit :=
  (field 0 4 ;;;
   errors <- schema ;;
   match errors with
   | [] => Ok tt
   | _ :: _ => Raise (ValueError (Schema errors))
   end)%outcome.

End print.

(** [Packet().from_payload(payload)]. *)
Definition from_payload (payload : list byte) : outcome Packet :=
  (data <- py.decode_ascii payload ;;
   d <- py.hexint (py.str_slice 0 2 data) ;;
   s <- py.hexint (py.str_slice 2 4 data) ;;
   c <- py.hexint (py.str_slice 4 6 data) ;;
   let self := mkPacket d s c (py.str_from 6 data) in
   _print self ;;;
   Ok self)%outcome.

(** [Packet.get_payload]. *)
Definition get_payload (self : Packet) : outcome (list byte) :=
  (let payload :=
     (py.format_0X 2 (dst self) ++ py.format_0X 2 (src self)
        ++ py.format_0X 2 (cmd self) ++ dat self)%string in
   payload <- py.encode_ascii payload ;;
   _print self ;;;
   Ok payload)%outcome.

End packet.


(* ------------------------------------------------------------------ *)
(** ** frame.py *)

Module frame.

Import packet.

Record Frame : Type := mkFrame {
  _payload : list byte
}.

(** [Frame._calculate_checksum]. *)
Definition _calculate_checksum (payload : list byte) : outcome (list byte) :=
  let checksum := py.sum payload mod 256 in
  py.encode_ascii (py.format_0X 2 checksum).

(** [Frame._calculate_parity]. *)
Definition _calculate_parity (payload : list byte) : outcome (list byte) :=
  let parity :=
    fold_left (fun parity payload_byte => N.lxor parity (Byte.to_N payload_byte))
      payload 0 in
  py.encode_ascii (py.format_0X 2 parity).

(** [b == 0x00 or 0x30 <= b <= 0x39 or 0x41 <= b <= 0x5A]. *)
Definition payload_value_ok (b : byte) : bool :=
  let n := Byte.to_N b in
  (n =? 0x00) || ((0x30 <=? n) && (n <=? 0x39))
  || ((0x41 <=? n) && (n <=? 0x5A)).

(** [Frame._validate]: every failed check adds one entry to [error]; a
    non-empty [error] is raised as a [ValueError]. *)
Definition _validate (frame : list byte) : outcome bool :=
  (let length := List.length frame in
   let e_length :=
     if (length <? 13)%nat then [InvalidFrameLength length] else [] in
   let start := py.slice (Some 0%Z) (Some 1%Z) frame in
   let e_start :=
     if py.bytes_eqb start [x02] then [] else [InvalidStart start] in
   let stop := py.slice (Some (-2)%Z) None frame in
   let e_end :=
     if py.bytes_eqb stop [x03; xff] then [] else [InvalidEnd stop] in
   let payload := py.slice (Some 1%Z) (Some (-6)%Z) frame in
   let e_sof := if py.contains x02 payload then [StartInsidePayload] else [] in
   let e_eof := if py.contains x03 payload then [EndInsidePayload] else [] in
   let e_values :=
     flat_map (fun b => if payload_value_ok b then []
                        else [InvalidPayloadValue b]) payload in
   let checksum := py.slice (Some (-6)%Z) (Some (-4)%Z) frame in
   expected_checksum <- _calculate_checksum payload ;;
   let e_checksum :=
     if py.bytes_eqb checksum expected_checksum then []
     else [InvalidChecksum] in
   let parity := py.slice (Some (-4)%Z) (Some (-2)%Z) frame in
   expected_parity <- _calculate_parity payload ;;
   let e_parity :=
     if py.bytes_eqb parity expected_parity then [] else [InvalidParity] in
   let error :=
     e_length ++ e_start ++ e_end ++ e_sof ++ e_eof ++ e_values
       ++ e_checksum ++ e_parity in
   match error with
   | [] => Ok true
   | _ :: _ => Raise (ValueError (FrameInvalid error frame))
   end)%outcome.

(** [Frame._from_bytes], reached through [Frame(data)] for [bytes]. *)
Definition _from_bytes (data : list byte) : outcome Frame :=
  (_validate data ;;;
   Ok (mkFrame (py.slice (Some 1%Z) (Some (-6)%Z) data)))%outcome.

(** [Frame._from_packet], reached through [Frame(p)] for a [Packet]. *)
Definition _from_packet (p : Packet) : outcome Frame :=
  (payload <- get_payload p ;; Ok (mkFrame payload))%outcome.

(** [Frame.get_bytes]. *)
Definition get_bytes (self : Frame) : outcome (list byte) :=
  (let start := [x02] in
   checksum <- _calculate_checksum (_payload self) ;;
   parity <- _calculate_parity (_payload self) ;;
   let stop := [x03; xff] in
   let data := start ++ _payload self ++ checksum ++ parity ++ stop in
   _validate data ;;;
   Ok data)%outcome.

(** [Frame.get_packet]. *)
Definition get_packet (self : Frame) : outcome Packet :=
  from_payload (_payload self).

End frame.

(* ------------------------------------------------------------------ *)
(** ** config.py *)

Module config.

Definition serial_device : string := "/dev/ttyUSB0".

Definition allowed_cards : list string :=
  ["04BA2A2ADA1790"; "0497147A5B1994"].

End config.

(* ------------------------------------------------------------------ *)
(** ** Process state

    The attributes of the one [CP] object, the globals of [main.py], the
    wall clock and the console.  [CP._outbox] is the very deque
    [main.OUTBOX] (the constructor stores the reference it is given), so
    the state holds it once.  The serial port is the list of chunks written
    to it so far; [None] stands for [HANDLE = None].  [CAPTURE] is left
    out: it only copies traffic to a file. *)

Import packet.

Record CP : Type := mkCP {
  _charger_state : N;
  _last_message : Packet;
  _last_message_timestamp : Z;
  _check_message_response : bool
}.

(** Lines written with [print] by [find_frames] and [respond]. *)
Inductive event : Type :=
| SofNotFound (data : list byte)
| DataBeforeSof (junk : list byte)
| ErrorLine (error : value_error)
| NotMeantForMe
| UnknownMessage
| Sending (at_time : Z).

Record World : Type := mkWorld {
  clock : Z;                          (* microseconds since 2000-01-01 *)
  HANDLE : option (list (list byte));
  MONITOR : bool;
  OUTBOX : list Packet;               (* left end of the deque first *)
  CB_MANAGER : CP;
  stdout : list event
}.

Definition set_clock (t : Z) (w : World) : World :=
  mkWorld t (HANDLE w) (MONITOR w) (OUTBOX w) (CB_MANAGER w) (stdout w).

Definition set_HANDLE (h : option (list (list byte))) (w : World) : World :=
  mkWorld (clock w) h (MONITOR w) (OUTBOX w) (CB_MANAGER w) (stdout w).

Definition set_OUTBOX (q : list Packet) (w : World) : World :=
  mkWorld (clock w) (HANDLE w) (MONITOR w) q (CB_MANAGER w) (stdout w).

Definition set_CB_MANAGER (c : CP) (w : World) : World :=
  mkWorld (clock w) (HANDLE w) (MONITOR w) (OUTBOX w) c (stdout w).

Definition set_stdout (l : list event) (w : World) : World :=
  mkWorld (clock w) (HANDLE w) (MONITOR w) (OUTBOX w) (CB_MANAGER w) l.

(** Stateful code that may raise: the state reached so far survives the
    exception, as in Python. *)
Definition M (A : Type) : Type := World -> outcome A * World.

Definition ret {A} (a : A) : M A := fun w => (Ok a, w).

Definition bind {A B} (m : M A) (k : A -> M B) : M B :=
  fun w =>
    match m w with
    | (Ok a, w') => k a w'
    | (Raise e, w') => (Raise e, w')
    end.

Definition lift {A} (o : outcome A) : M A := fun w => (o, w).

Definition modify (f : World -> World) : M unit := fun w => (Ok tt, f w).

Declare Scope M_scope.
Delimit Scope M_scope with M.
Notation "x <- m ;; k" := (bind m (fun x => k))
  (at level 61, m at next level, right associativity) : M_scope.
Notation "m ;;; k" := (bind m (fun _ => k))
  (at level 61, right associativity) : M_scope.

(** [print(...)]. *)
Definition print (e : event) : M unit :=
  modify (fun w => set_stdout (stdout w ++ [e]) w).

(** [datetime.datetime.now()]. *)
Definition datetime_now : M Z := fun w => (Ok (clock w), w).

(** [time.sleep(d)], [d] in microseconds. *)
Definition sleep (d : Z) : M unit :=
  modify (fun w => set_clock (clock w + d) w).

(** [datetime.timedelta(seconds = n)] in microseconds. *)
Definition seconds (n : Z) : Z := (n * 1000000)%Z.

(** [deque.appendleft] and [deque.pop] (which takes from the right). *)
Definition appendleft {A} (x : A) (q : list A) : list A := x :: q.

Definition pop {A} (q : list A) : option (A * list A) :=
  match rev q with
  | [] => None
  | x :: r => Some (x, rev r)
  end.

(* ------------------------------------------------------------------ *)
(** ** manager.py *)

Module manager.

Definition with_cp (f : CP -> CP) : M unit :=
  modify (fun w => set_CB_MANAGER (f (CB_MANAGER w)) w).

Definition set_charger_state (v : N) (s : CP) : CP :=
  mkCP v (_last_message s) (_last_message_timestamp s)
    (_check_message_response s).

Definition set_last_message (p : Packet) (s : CP) : CP :=
  mkCP (_charger_state s) p (_last_message_timestamp s)
    (_check_message_response s).

Definition set_last_message_timestamp (t : Z) (s : CP) : CP :=
  mkCP (_charger_state s) (_last_message s) t (_check_message_response s).

Definition set_check_message_response (b : bool) (s : CP) : CP :=
  mkCP (_charger_state s) (_last_message s) (_last_message_timestamp s) b.

(** [CP._send]. *)
Definition _send (p : Packet) (check_response : bool) : M unit :=
  ((if check_response
    then with_cp (set_check_message_response true) ;;;
         with_cp (set_last_message p)
    else ret tt) ;;;
   now <- datetime_now ;;
   with_cp (set_last_message_timestamp now) ;;;
   modify (fun w => set_OUTBOX (appendleft p (OUTBOX w)) w))%M.

(** [CP._timestamp]: whole seconds since 1 January 2000, eight hex digits. *)
Definition _timestamp : M string :=
  (now <- datetime_now ;;
   let t := Z.quot now (seconds 1) in
   ret (py.format_0X_int 8 t))%M.

(** [CP._disable_response_check]. *)
Definition _disable_response_check : M unit :=
  with_cp (set_check_message_response false).

(** [CP.__init__]: the attributes are set, then the first request goes out. *)
Definition __init__ : M unit :=
  (let request := mkPacket ADDR_BROADCAST ADDR_CP 0x1E "" in
   now <- datetime_now ;;
   with_cp (fun _ => mkCP 0 request now false) ;;;
   _send request false)%M.

Section respond.

(** [config.allowed_cards], kept general here. *)
Variable allowed_cards : list string.

(** [CP.respond]. *)
Definition respond (message : Packet) : M unit :=
  (let c := cmd message in
   if negb ((dst message =? ADDR_BROADCAST) || (dst message =? ADDR_CP)) then
     print NotMeantForMe
   else if c =? 0x11 then
     let serial := py.str_slice 0 7 (dat message) in
     let response :=
       mkPacket (src message) ADDR_CP (cmd message)
         (serial ++ py.format_0X 2 ADDR_CHARGER ++ "03")%string in
     _send response false ;;;
     with_cp (set_charger_state 1)
   else if c =? 0x13 then
     _send (mkPacket (src message) ADDR_CP 0x33 "") false
   else if c =? 0x21 then
     _send (mkPacket (src message) ADDR_CP (cmd message) "") false
   else if c =? 0x22 then
     card_number_length <- lift (py.hexint (py.str_slice 2 4 (dat message))) ;;
     let card_number :=
       py.str_slice 4 (4 + N.to_nat card_number_length) (dat message) in
     let status :=
       if String.eqb card_number "000000AS" then "01"
       else if existsb (String.eqb card_number) allowed_cards then "01"
       else "12" in
     let response :=
       mkPacket (src message) ADDR_CP (cmd message)
         (status ++ py.format_0X 2 card_number_length
            ++ py.format_0str 22 card_number ++ "FFFF")%string in
     _send response false
   else if c =? 0x23 then
     let session := 0 in
     ts <- _timestamp ;;
     _send (mkPacket (src message) ADDR_CP (cmd message)
              ("01" ++ py.format_0X 8 session ++ ts)%string) false
   else if c =? 0x24 then
     _send (mkPacket (src message) ADDR_CP (cmd message) "01") false
   else if c =? 0x26 then
     let session := 0 in
     ts <- _timestamp ;;
     _send (mkPacket (src message) ADDR_CP (cmd message)
              (py.format_0X 8 session ++ ts)%string) false
   else if c =? 0x31 then _disable_response_check
   else if c =? 0x32 then _disable_response_check
   else if c =? 0x33 then _disable_response_check
   else if c =? 0x34 then _disable_response_check
   else if c =? 0x36 then ret tt
   else if c =? 0x37 then ret tt
   else if c =? 0x38 then ret tt
   else if c =? 0x41 then ret tt
   else if c =? 0x42 then ret tt
   else if c =? 0x43 then ret tt
   else if c =? 0x66 then
     _send (mkPacket (src message) ADDR_CP (cmd message) "") false
   else if c =? 0x6A then
     _send (mkPacket (src message) ADDR_CP (cmd message) "AA00") false ;;;
     let state := py.str_slice 0 2 (dat message) in
     if String.eqb state "A7" then
       let current_min := "003C" in
       let current1 := "003C" in
       let current2 := "003C" in
       let current3 := "003C" in
       _send (mkPacket (src message) ADDR_CP 0x6B
                ("01" ++ current_min ++ current1 ++ current2 ++ current3)%string)
         true
     else if String.eqb state "81" then
       let current_min := "003C" in
       let current1 := "00A0" in
       let current2 := "00A0" in
       let current3 := "00A0" in
       _send (mkPacket (src message) ADDR_CP 0x6B
                ("01" ++ current_min ++ current1 ++ current2 ++ current3)%string)
         true
     else ret tt
   else if c =? 0x6B then _disable_response_check
   else if c =? 0x6C then ret tt
   else print UnknownMessage)%M.

End respond.

(** [CP._check_response]. *)
Definition _check_response : M unit :=
  (now <- datetime_now ;;
   fun w =>
     let self := CB_MANAGER w in
     if (_last_message_timestamp self + seconds 2 >? now)%Z then ret tt w
     else _send (_last_message self) true w)%M.

(** [CP._configure_charger]. *)
Definition _configure_charger : M unit :=
  (now <- datetime_now ;;
   fun w =>
     let self := CB_MANAGER w in
     if (_last_message_timestamp self + seconds 5 >? now)%Z then ret tt w
     else if _charger_state self =? 1 then
       (let heartbeat_interval := "0000003C" in
        let led_enable := "00" in
        _send (mkPacket ADDR_CHARGER ADDR_CP 0x1B
                 (heartbeat_interval ++ led_enable)%string) false ;;;
        with_cp (set_charger_state 2)) w
     else if _charger_state self =? 2 then
       (let mask := "FFFFFFFF" in
        let led_brightness := "1E" in
        let meter_type := "01" in
        let auto_start := "01" in
        let meter_update_interval := "0000003C" in
        let remote_start := "00" in
        _send (mkPacket ADDR_CHARGER ADDR_CP 0x34
                 (mask ++ led_brightness ++ "030000" ++ meter_type
                    ++ "01000100000000000000" ++ auto_start
                    ++ "000000003C00000384" ++ meter_update_interval
                    ++ "01000000" ++ remote_start ++ "03E8010000")%string)
          true ;;;
        with_cp (set_charger_state 3)) w
     else if _charger_state self =? 3 then
       with_cp (set_charger_state 0) w
     else ret tt w)%M.

(** [CP.timers]. *)
Definition timers : M unit :=
  ((fun w =>
      if _check_message_response (CB_MANAGER w) then _check_response w
      else ret tt w) ;;;
   (fun w =>
      if 0 <? _charger_state (CB_MANAGER w) then _configure_charger w
      else ret tt w))%M.

End manager.

(* ------------------------------------------------------------------ *)
(** ** main.py *)

Module main.

(** [HANDLE.write(data)]; with [HANDLE = None] Python raises
    [AttributeError]. *)
Definition HANDLE_write (data : list byte) : M unit :=
  fun w =>
    match HANDLE w with
    | Some written => (Ok tt, set_HANDLE (Some (written ++ [data])) w)
    | None => (Raise AttributeError, w)
    end.

(** [send(p)]. *)
Definition send (p : Packet) : M unit :=
  (sleep 100000 ;;;
   now <- datetime_now ;;
   print (Sending now) ;;;
   f <- lift (frame._from_packet p) ;;
   data <- lift (frame.get_bytes f) ;;
   HANDLE_write data)%M.

(** [while OUTBOX: p = OUTBOX.pop(); send(p)], one round per unit of
    [fuel]. *)
Fixpoint drain (fuel : nat) : M unit :=
  match fuel with
  | O => ret tt
  | S fuel' =>
      fun w =>
        match pop (OUTBOX w) with
        | None => (Ok tt, w)
        | Some (p, rest) => (send p ;;; drain fuel')%M (set_OUTBOX rest w)
        end
  end.

(** The drain loop: [send] never enqueues, so one round per queued packet
    is all the loop can make. *)
Definition drain_OUTBOX : M unit :=
  fun w => drain (List.length (OUTBOX w)) w.

(** [HANDLE and not MONITOR]. *)
Definition active (w : World) : bool :=
  match HANDLE w with
  | Some _ => negb (MONITOR w)
  | None => false
  end.

(** The [try] statement of [find_frames] for one closed frame.  Only
    [ValueError] is handled; the [else] suite runs outside the handler. *)
Definition handle_frame (frame_data : list byte) : M unit :=
  match (f <- frame._from_bytes frame_data ;; frame.get_packet f)%outcome with
  | Raise (ValueError error) => print (ErrorLine error)
  | Raise e => lift (Raise e)
  | Ok p =>
      fun w =>
        if active w
        then (manager.respond config.allowed_cards p ;;; drain_OUTBOX)%M w
        else ret tt w
  end.

(** [find_frames(data)], one iteration of [while True] per unit of
    [fuel]; [None] means the fuel ran out. *)
Fixpoint find_frames_loop (fuel : nat) (data : list byte) (w : World)
  : option (outcome (list byte) * World) :=
  match fuel with
  | O => None
  | S fuel' =>
      let n := py.find [x02] data in
      if (n <? 0)%Z then Some ((print (SofNotFound data) ;;; ret [])%M w)
      else
        let '(data, w) :=
          if (n >? 0)%Z
          then (py.slice (Some n) None data,
                snd (print (DataBeforeSof (py.slice None (Some n) data)) w))
          else (data, w) in
        let m := py.find [x03; xff] data in
        if (m <? 0)%Z then Some (Ok data, w)
        else
          let frame_data := py.slice None (Some (m + 2)%Z) data in
          let data := py.slice (Some (m + 2)%Z) None data in
          match handle_frame frame_data w with
          | (Raise e, w) => Some (Raise e, w)
          | (Ok _, w) =>
              if Nat.eqb (List.length data) 0 then Some (Ok [], w)
              else find_frames_loop fuel' data w
          end
  end.

(** [find_frames(data)]: every iteration that goes round again has
    dropped at least two bytes. *)
Definition find_frames (data : list byte) (w : World)
  : option (outcome (list byte) * World) :=
  find_frames_loop (S (List.length data)) data w.

(** The second half of the loop of [read_from_serial]: the timers, then
    the drain. *)
Definition poll_timers : M unit :=
  fun w =>
    if active w then (manager.timers ;;; drain_OUTBOX)%M w else ret tt w.

End main.

(* ================================================================== *)
(** * Vocabulary of the properties

    Names for the pieces of state and of code that the statements below
    talk about; nothing here is used by the embedding above. *)

(** The items of [l] from position [a] up to, not including, [b]. *)
Definition seg {A} (a b : nat) (l : list A) : list A :=
  firstn (b - a) (skipn a l).

Definition resolve_start (len : Z) (start : option Z) : Z :=
  match start with None => 0%Z | Some i => py.bound len i end.

Definition resolve_stop (len : Z) (stop : option Z) : Z :=
  match stop with None => len | Some j => py.bound len j end.

(** The payload region of a frame, [frame[1:-6]]. *)
Definition payload_of (b : list byte) : list byte :=
  py.slice (Some 1%Z) (Some (-6)%Z) b.

(** What a frame that passes [_validate] looks like. *)
Record well_framed (b : list byte) (checksum parity : list byte) : Prop := {
  wf_length : (13 <= List.length b)%nat;
  wf_start : py.slice (Some 0%Z) (Some 1%Z) b = [x02];
  wf_end : py.slice (Some (-2)%Z) None b = [x03; xff];
  wf_no_sof : py.contains x02 (payload_of b) = false;
  wf_no_eof : py.contains x03 (payload_of b) = false;
  wf_values : forallb frame.payload_value_ok (payload_of b) = true;
  wf_checksum_calc : frame._calculate_checksum (payload_of b) = Ok checksum;
  wf_parity_calc : frame._calculate_parity (payload_of b) = Ok parity;
  wf_checksum : py.slice (Some (-6)%Z) (Some (-4)%Z) b = checksum;
  wf_parity : py.slice (Some (-4)%Z) (Some (-2)%Z) b = parity
}.

(** The responses that stop the response check. *)
Definition clearing_opcodes : list N := [0x31; 0x32; 0x33; 0x34; 0x6B].

(** The [0x1B] request of phase 1 and the [0x34] request of phase 2. *)
Definition connection_state_request : Packet :=
  mkPacket ADDR_CHARGER ADDR_CP 0x1B ("0000003C" ++ "00").

Definition set_configuration_request : Packet :=
  mkPacket ADDR_CHARGER ADDR_CP 0x34
    ("FFFFFFFF" ++ "1E" ++ "030000" ++ "01" ++ "01000100000000000000"
       ++ "01" ++ "000000003C" ++ "00000384" ++ "0000003C" ++ "01000000"
       ++ "00" ++ "03E8010000").

(** [Frame(p).get_bytes()], as [send] computes it. *)
Definition encode (p : Packet) : outcome (list byte) :=
  (f <- frame._from_packet p ;; frame.get_bytes f)%outcome.

Definition is_ok {A} (o : outcome A) : bool :=
  match o with
  | Ok _ => true
  | Raise _ => false
  end.

(** The state in which [send] reaches the encoder: 100 ms later, one line
    printed. *)
Definition before_write (w : World) : World :=
  set_stdout (stdout w ++ [Sending (clock w + 100000)%Z])
    (set_clock (clock w + 100000)%Z w).

(** The packets in the order in which [pop] hands them out. *)
Fixpoint pop_all (fuel : nat) {A} (q : list A) : list A :=
  match fuel with
  | O => []
  | S fuel' =>
      match pop q with
      | None => []
      | Some (x, r) => x :: pop_all fuel' r
      end
  end.

(** [Frame(frame_data).get_packet()], the body of the [try]. *)
Definition decode (frame_data : list byte) : outcome Packet :=
  (f <- frame._from_bytes frame_data ;; frame.get_packet f)%outcome.

(** An outcome that, if it is an exception, is a [ValueError]. *)
Definition value_errors {A} (o : outcome A) : Prop :=
  match o with
  | Ok _ => True
  | Raise (ValueError _) => True
  | Raise AttributeError => False
  end.

(** The state after [print(...)]. *)
Definition logged (e : event) (w : World) : World :=
  set_stdout (stdout w ++ [e]) w.

(** What [find_frames] has in hand once the start marker is at the front
    of the buffer: bytes before the marker at [n] are reported and cut. *)
Definition at_start (n : Z) (data : list byte) (w : World)
  : list byte * World :=
  if (n >? 0)%Z
  then (py.slice (Some n) None data,
        logged (DataBeforeSof (py.slice None (Some n) data)) w)
  else (data, w).

(** One pass through the body of [while True]: either [find_frames]
    returns, or it goes round again with a shorter buffer. *)
Inductive pass : Type :=
| Returns (r : outcome (list byte) * World)
| Again (data : list byte) (w : World).

Definition one_pass (data : list byte) (w : World) : pass :=
  let n := py.find [x02] data in
  if (n <? 0)%Z then Returns (Ok [], logged (SofNotFound data) w)
  else
    let '(data, w) := at_start n data w in
    let m := py.find [x03; xff] data in
    if (m <? 0)%Z then Returns (Ok data, w)
    else
      let frame_data := py.slice None (Some (m + 2)%Z) data in
      let data := py.slice (Some (m + 2)%Z) None data in
      match main.handle_frame frame_data w with
      | (Raise e, w) => Returns (Raise e, w)
      | (Ok _, w) =>
          if Nat.eqb (List.length data) 0 then Returns (Ok [], w)
          else Again data w
      end.

(** A register request that claims to come from the ChargePoint's own
    address, in its frame. *)
Definition echo_register_frame : list byte :=
  x02 :: list_byte_of_string "8080111234567ABCD00036B37" ++ [x03; xff].

(** A scanner with a serial port, not in monitor mode. *)
Definition live : World :=
  mkWorld 0 (Some []) false []
    (mkCP 0 (mkPacket ADDR_BROADCAST ADDR_CP 0x1E "") 0 false) [].

(** The packet that [from_payload] builds before it calls [_print]. *)
Definition header (payload : list byte) : outcome Packet :=
  (data <- py.decode_ascii payload ;;
   d <- py.hexint (py.str_slice 0 2 data) ;;
   s <- py.hexint (py.str_slice 2 4 data) ;;
   c <- py.hexint (py.str_slice 4 6 data) ;;
   Ok (mkPacket d s c (py.str_from 6 data)))%outcome.

(** A heartbeat request with two characters of [dat], in a frame whose
    envelope is in order. *)
Definition long_heartbeat_frame : list byte :=
  x02 :: list_byte_of_string "800121008C0A" ++ [x03; xff].

(** ['0'..'9'] or ['A'..'F'], as a byte. *)
Definition is_hex_upper (b : byte) : bool :=
  let n := Byte.to_N b in
  ((0x30 <=? n) && (n <=? 0x39)) || ((0x41 <=? n) && (n <=? 0x46)).

(** The bytes [get_bytes] puts together around a payload. *)
Definition framed (payload checksum parity : list byte) : list byte :=
  [x02] ++ payload ++ checksum ++ parity ++ [x03; xff].

(** [data.hex(' ').upper()]: two upper-case hex digits per byte, one
    space between bytes. *)
Fixpoint hex_upper_spaced (data : list byte) : string :=
  match data with
  | [] => ""
  | b :: rest =>
      match rest with
      | [] => py.format_0X 2 (Byte.to_N b)
      | _ :: _ => py.format_0X 2 (Byte.to_N b) ++ " " ++ hex_upper_spaced rest
      end
  end.

(** The line that [send] and [read_from_serial] write to the capture file
    for one chunk of traffic: [f"{data.hex(' ').upper()}\n"]. *)
Definition capture_record (data : list byte) : string :=
  hex_upper_spaced data ++ String "010"%char "".

(** The number that a run of hex digits denotes, most significant digit
    first, continuing from [a]; [None] if a character is not a hex
    digit. *)
Fixpoint hex_value (s : string) (a : N) : option N :=
  match s with
  | EmptyString => Some a
  | String c s' =>
      match py.hex_val c with
      | Some d => hex_value s' (a * 16 + d)
      | None => None
      end
  end.

(** Every character is one of ['0'..'9'] and ['A'..'F']. *)
Definition all_hex_upper (s : string) : bool :=
  forallb is_hex_upper (list_byte_of_string s).

(* ================================================================== *)
(** * Properties *)

(* ------------------------------------------------------------------ *)
(** ** The built-ins and the packet decoder on sample inputs *)

Example hex_3C : py.format_0X 8 60 = "0000003C".
Proof. reflexivity. Qed.

Example hex_neg : py.format_0X_int 8 (-1) = "-0000001".
Proof. reflexivity. Qed.

Example pad_card : py.format_0str 22 "000000AS" = "000000AS00000000000000".
Proof. reflexivity. Qed.

Example fromhex_odd : py.hexint "123" = Raise (ValueError (FromHex "123")).
Proof. reflexivity. Qed.

Example fromhex_AA00 : py.hexint "AA00" = Ok 0xAA00.
Proof. reflexivity. Qed.

Example slice_tail : py.slice (Some (-2)%Z) None [x01; x02; x03; xff] = [x03; xff].
Proof. reflexivity. Qed.

Example find_eof : py.find [x03; xff] [x02; x03; x30; x03; xff; x02] = 3%Z.
Proof. reflexivity. Qed.

Example register_request_decodes :
  packet.from_payload (list_byte_of_string "8000111234567ABCD0003")
  = Ok (packet.mkPacket 0x80 0x00 0x11 "1234567ABCD0003").
Proof. reflexivity. Qed.

Example heartbeat_with_data_is_rejected :
  packet.from_payload (list_byte_of_string "80012100")
  = Raise (ValueError (Schema [InvalidMessageLength 2 0])).
Proof. reflexivity. Qed.

(* ------------------------------------------------------------------ *)
(** ** Slices and byte strings *)

Section Slices.

Context {A : Type}.

Lemma firstn_plus (n m : nat) (l : list A) :
  firstn (n + m) l = firstn n l ++ firstn m (skipn n l).
Proof.
  revert l; induction n as [|n IH]; intros l; simpl.
  - reflexivity.
  - destruct l as [|x l]; simpl.
    + now rewrite firstn_nil.
    + now rewrite IH.
Qed.

Lemma seg_app (a b c : nat) (l : list A) :
  (a <= b)%nat -> (b <= c)%nat -> seg a b l ++ seg b c l = seg a c l.
Proof.
  intros Hab Hbc. unfold seg.
  replace (c - a)%nat with ((b - a) + (c - b))%nat by lia.
  rewrite firstn_plus. f_equal. f_equal.
  rewrite skipn_skipn. f_equal. lia.
Qed.

Lemma seg_all (l : list A) : seg 0 (List.length l) l = l.
Proof.
  unfold seg. simpl. rewrite Nat.sub_0_r. apply firstn_all.
Qed.

Lemma seg_length (a b : nat) (l : list A) :
  (a <= b)%nat -> (b <= List.length l)%nat -> List.length (seg a b l) = (b - a)%nat.
Proof.
  intros Hab Hb. unfold seg. rewrite length_firstn, length_skipn. lia.
Qed.

Lemma slice_seg (start stop : option Z) (l : list A) (a b : nat) :
  resolve_start (Z.of_nat (List.length l)) start = Z.of_nat a ->
  resolve_stop (Z.of_nat (List.length l)) stop = Z.of_nat b ->
  py.slice start stop l = seg a b l.
Proof.
  unfold py.slice, resolve_start, resolve_stop, seg. intros Ha Hb.
  rewrite Ha, Hb. f_equal; [lia | f_equal; lia].
Qed.

(** [l[k:]] is shorter than [l] unless both are empty. *)
Lemma slice_from_length (k : Z) (l : list A) :
  (0 <= k)%Z ->
  List.length (py.slice (Some k) None l) = (List.length l - Z.to_nat k)%nat.
Proof.
  intros Hk. unfold py.slice, py.bound.
  rewrite length_firstn, length_skipn.
  destruct (k <? 0)%Z eqn:E; lia.
Qed.

End Slices.

Lemma byte_eqb_eq (x y : byte) : py.byte_eqb x y = true <-> x = y.
Proof.
  unfold py.byte_eqb. split; [apply Byte.byte_dec_bl | apply Byte.byte_dec_lb].
Qed.

Lemma bytes_eqb_eq (x y : list byte) : py.bytes_eqb x y = true <-> x = y.
Proof.
  revert y; induction x as [|a x IH]; intros [|b y]; simpl;
    try (split; [discriminate | discriminate]); try tauto.
  rewrite andb_true_iff, byte_eqb_eq, IH.
  split; [intros [-> ->]; reflexivity | intros E; inversion E; auto].
Qed.

(* ------------------------------------------------------------------ *)
(** ** The frame codec *)

Section FrameCodec.

Import frame.

Lemma flat_map_nil_forallb (l : list byte) :
  flat_map (fun b => if payload_value_ok b then []
                     else [InvalidPayloadValue b]) l = [] ->
  forallb payload_value_ok l = true.
Proof.
  induction l as [|x l IH]; simpl; [reflexivity|].
  destruct (payload_value_ok x); simpl; [assumption | discriminate].
Qed.

Lemma validate_ok_inv (b : list byte) (r : bool) :
  _validate b = Ok r ->
  r = true /\ exists checksum parity, well_framed b checksum parity.
Proof.
  unfold _validate. fold (payload_of b).
  destruct (_calculate_checksum (payload_of b)) as [c|e] eqn:Ec;
    simpl; [|discriminate].
  destruct (_calculate_parity (payload_of b)) as [p|e] eqn:Ep;
    simpl; [|discriminate].
  match goal with
  | |- match ?err with [] => _ | _ :: _ => _ end = _ -> _ =>
      destruct err eqn:Eerr; [|discriminate]
  end.
  intros H; inversion H; subst r; split; [reflexivity|].
  repeat match goal with
         | H : _ ++ _ = [] |- _ => apply app_eq_nil in H; destruct H
         end.
  exists c, p.
  repeat match goal with
         | H : (if ?x then _ else _) = [] |- _ =>
             destruct x eqn:?; try discriminate H; clear H
         end.
  constructor; auto.
  - apply Nat.ltb_ge; assumption.
  - apply bytes_eqb_eq; assumption.
  - apply bytes_eqb_eq; assumption.
  - apply flat_map_nil_forallb; assumption.
  - apply bytes_eqb_eq; assumption.
  - apply bytes_eqb_eq; assumption.
Qed.

(** A frame of seven bytes or more is its start marker, payload, checksum,
    parity and end marker laid end to end. *)
Lemma frame_regions (b : list byte) :
  (7 <= List.length b)%nat ->
  b = py.slice (Some 0%Z) (Some 1%Z) b ++ payload_of b
        ++ py.slice (Some (-6)%Z) (Some (-4)%Z) b
        ++ py.slice (Some (-4)%Z) (Some (-2)%Z) b
        ++ py.slice (Some (-2)%Z) None b.
Proof.
  intros Hlen. unfold payload_of.
  set (n := List.length b) in *.
  rewrite (@slice_seg _ (Some 0%Z) (Some 1%Z) b 0 1);
    [| unfold resolve_start, py.bound; simpl; lia
     | unfold resolve_stop, py.bound; simpl; lia].
  rewrite (@slice_seg _ (Some 1%Z) (Some (-6)%Z) b 1 (n - 6)%nat);
    [| unfold resolve_start, py.bound; simpl; lia
     | unfold resolve_stop, py.bound; simpl; lia].
  rewrite (@slice_seg _ (Some (-6)%Z) (Some (-4)%Z) b (n - 6)%nat (n - 4)%nat);
    [| unfold resolve_start, py.bound; simpl; lia
     | unfold resolve_stop, py.bound; simpl; lia].
  rewrite (@slice_seg _ (Some (-4)%Z) (Some (-2)%Z) b (n - 4)%nat (n - 2)%nat);
    [| unfold resolve_start, py.bound; simpl; lia
     | unfold resolve_stop, py.bound; simpl; lia].
  rewrite (@slice_seg _ (Some (-2)%Z) None b (n - 2)%nat n);
    [| unfold resolve_start, py.bound; simpl; lia
     | unfold resolve_stop, py.bound; simpl; lia].
  rewrite (@seg_app _ (n - 4)%nat (n - 2)%nat n b) by lia.
  rewrite (@seg_app _ (n - 6)%nat (n - 4)%nat n b) by lia.
  rewrite (@seg_app _ 1 (n - 6)%nat n b) by lia.
  rewrite (@seg_app _ 0 1 n b) by lia.
  symmetry. apply seg_all.
Qed.

Lemma well_framed_regions (b checksum parity : list byte) :
  well_framed b checksum parity ->
  b = [x02] ++ payload_of b ++ checksum ++ parity ++ [x03; xff].
Proof.
  intros W. destruct W.
  rewrite <- wf_start0, <- wf_end0, <- wf_checksum0, <- wf_parity0.
  apply frame_regions. lia.
Qed.

End FrameCodec.

(** C1.  Every byte string [b] from which [Frame(b)] is built without an
    exception is returned unchanged by [get_bytes]: the frame put together
    again as [0x02], payload, checksum, parity, [0x03 0xFF] is [b]. *)
Theorem frame_decode_encode (b : list byte) (f : frame.Frame) :
  frame._from_bytes b = Ok f -> frame.get_bytes f = Ok b.
Proof.
  unfold frame._from_bytes. intros H.
  destruct (frame._validate b) as [r|e] eqn:V; simpl in H; [|discriminate].
  inversion H; subst f; clear H.
  destruct (@validate_ok_inv b r V) as [-> (c & p & W)].
  pose proof (@well_framed_regions b c p W) as R.
  unfold frame.get_bytes; simpl. fold (payload_of b).
  rewrite (wf_checksum_calc W), (wf_parity_calc W). simpl.
  change (x02 :: payload_of b ++ c ++ p ++ [x03; xff])
    with ([x02] ++ payload_of b ++ c ++ p ++ [x03; xff]).
  rewrite <- R, V. reflexivity.
Qed.

Lemma frame_decode_encode_witness :
  let b := x02 :: list_byte_of_string "8000111234567ABCD0003633F" ++ [x03; xff] in
  let f := frame.mkFrame (list_byte_of_string "8000111234567ABCD0003") in
  frame._from_bytes b = Ok f /\ frame.get_bytes f = Ok b.
Proof.
  split; [reflexivity | apply frame_decode_encode; reflexivity].
Defined.

(* ------------------------------------------------------------------ *)
(** ** The ChargePoint actor *)

(** Unfolds the plumbing of [M] and the small methods of [CP]. *)
Ltac run :=
  cbv beta iota delta
    [bind ret lift modify print datetime_now sleep manager.with_cp
     manager._send manager._timestamp manager._disable_response_check
     manager._check_response manager._configure_charger manager.timers
     appendleft].

(** Decides the comparisons of an opcode or address with the constants of
    the [if]/[elif] chains, once the opcode is known. *)
Ltac dispatch :=
  cbv beta iota delta
    [ADDR_CP ADDR_BROADCAST ADDR_CHARGER N.eqb Pos.eqb negb orb andb].

(** Reduces the projections and the field updates of the state records. *)
Ltac proj :=
  cbn [fst snd clock HANDLE MONITOR OUTBOX CB_MANAGER stdout
       _charger_state _last_message _last_message_timestamp
       _check_message_response
       set_clock set_HANDLE set_OUTBOX set_CB_MANAGER set_stdout
       manager.set_charger_state manager.set_last_message
       manager.set_last_message_timestamp
       manager.set_check_message_response] in *.

Lemma from_payload_printed (payload : list byte) (p : Packet) :
  from_payload payload = Ok p -> _print p = Ok tt.
Proof.
  unfold from_payload. intros H.
  destruct (py.decode_ascii payload) as [data|]; simpl in H; [|discriminate].
  destruct (py.hexint (py.str_slice 0 2 data)); simpl in H; [|discriminate].
  destruct (py.hexint (py.str_slice 2 4 data)); simpl in H; [|discriminate].
  destruct (py.hexint (py.str_slice 4 6 data)); simpl in H; [|discriminate].
  match type of H with
  | obind ?m _ = _ => destruct m as [[]|] eqn:E; simpl in H; [|discriminate]
  end.
  inversion H; subst p. exact E.
Qed.

(** An authentication packet that [_print] lets through has a length field
    that [bytes.fromhex] accepts. *)
Lemma auth_length_field (p : Packet) :
  cmd p = 0x22 -> _print p = Ok tt ->
  exists n, py.hexint (py.str_slice 2 4 (dat p)) = Ok n.
Proof.
  intros Hc. unfold _print, schema. rewrite Hc. dispatch.
  destruct (field p 0 4); simpl; [|discriminate].
  unfold field.
  destruct (py.hexint (py.str_slice 0 2 (dat p))); simpl; [|discriminate].
  destruct (py.hexint (py.str_slice 2 4 (dat p))) as [n|]; simpl;
    [|discriminate].
  intros _. now exists n.
Qed.

Lemma card_listed (card : string) (cards : list string) :
  existsb (String.eqb card) cards = true <-> In card cards.
Proof.
  rewrite existsb_exists. split.
  - intros (x & Hin & E). apply String.eqb_eq in E. now subst x.
  - intros Hin. exists card. split; [assumption | apply String.eqb_refl].
Qed.

(** C5.  A [0x11] register request handled from an empty outbox leaves
    [_charger_state] at 1 (phase 1) and exactly one packet in the outbox:
    a [0x11] response to the sender, from the ChargePoint, whose [dat] is
    the first seven characters of the request's [dat], then ["01"], then
    ["03"]. *)
Theorem register_reply (cards : list string) (message : Packet) (w : World) :
  cmd message = 0x11 -> dst message = ADDR_CP -> OUTBOX w = [] ->
  exists w',
    manager.respond cards message w = (Ok tt, w')
    /\ _charger_state (CB_MANAGER w') = 1
    /\ OUTBOX w'
       = [mkPacket (src message) ADDR_CP 0x11
            (py.str_slice 0 7 (dat message) ++ "01" ++ "03")].
Proof.
  intros Hc Hd Ho. unfold manager.respond. rewrite Hc, Hd. dispatch. run.
  eexists. split; [reflexivity|]. simpl. rewrite Ho. split; reflexivity.
Qed.

Lemma register_reply_witness :
  let message := mkPacket 0x80 0x00 0x11 "1234567ABCD0003" in
  let w := mkWorld 0 (Some []) false [] (mkCP 0 new 0 false) [] in
  exists w',
    manager.respond config.allowed_cards message w = (Ok tt, w')
    /\ _charger_state (CB_MANAGER w') = 1
    /\ OUTBOX w' = [mkPacket 0x00 0x80 0x11 "12345670103"].
Proof.
  apply (@register_reply config.allowed_cards
           (mkPacket 0x80 0x00 0x11 "1234567ABCD0003")
           (mkWorld 0 (Some []) false [] (mkCP 0 new 0 false) []));
    reflexivity.
Defined.



(** C6.  A [0x6A] charging-state request is answered with a [0x6A] reply
    whose [dat] is ["AA00"].  When the state code [dat[0:2]] is ["A7"] a
    [0x6B] request with [dat = "01003C003C003C003C"] follows, when it is
    ["81"] one with [dat = "01003C00A000A000A0"]; both are sent with the
    response check on, so they become [_last_message].  For any other
    state code the reply is all that is enqueued and the response check
    is left as it was. *)
Theorem charging_state_reply
  (cards : list string) (message : Packet) (w : World) :
  cmd message = 0x6A -> dst message = ADDR_CP ->
  let state := py.str_slice 0 2 (dat message) in
  let ack := mkPacket (src message) ADDR_CP 0x6A "AA00" in
  let limit := fun d => mkPacket (src message) ADDR_CP 0x6B d in
  exists w',
    manager.respond cards message w = (Ok tt, w')
    /\ (state = "A7" ->
        OUTBOX w' = limit "01003C003C003C003C" :: ack :: OUTBOX w
        /\ _check_message_response (CB_MANAGER w') = true
        /\ _last_message (CB_MANAGER w') = limit "01003C003C003C003C")
    /\ (state = "81" ->
        OUTBOX w' = limit "01003C00A000A000A0" :: ack :: OUTBOX w
        /\ _check_message_response (CB_MANAGER w') = true
        /\ _last_message (CB_MANAGER w') = limit "01003C00A000A000A0")
    /\ (state <> "A7" -> state <> "81" ->
        OUTBOX w' = ack :: OUTBOX w
        /\ _check_message_response (CB_MANAGER w')
           = _check_message_response (CB_MANAGER w)
        /\ _last_message (CB_MANAGER w') = _last_message (CB_MANAGER w)).
Proof.
  intros Hc Hd state ack limit.
  unfold manager.respond. rewrite Hc, Hd. dispatch. fold state.
  destruct (String.eqb state "A7") eqn:E1;
    [| destruct (String.eqb state "81") eqn:E2 ];
    run; (eexists; split; [reflexivity|]).
  - apply String.eqb_eq in E1. rewrite E1.
    split; [intros _; repeat split|].
    split; [discriminate | intros H; now elim H].
  - apply String.eqb_eq in E2. rewrite E2.
    split; [discriminate|].
    split; [intros _; repeat split | intros _ H; now elim H].
  - apply String.eqb_neq in E1. apply String.eqb_neq in E2.
    split; [intros H; now elim E1|].
    split; [intros H; now elim E2|].
    intros _ _. repeat split.
Qed.

Lemma charging_state_reply_witness :
  let message := mkPacket 0x80 0x01 0x6A "A700" in
  let w := mkWorld 0 (Some []) false [] (mkCP 0 new 0 false) [] in
  let state := py.str_slice 0 2 (dat message) in
  let ack := mkPacket (src message) ADDR_CP 0x6A "AA00" in
  let limit := fun d => mkPacket (src message) ADDR_CP 0x6B d in
  exists w',
    manager.respond config.allowed_cards message w = (Ok tt, w')
    /\ (state = "A7" ->
        OUTBOX w' = limit "01003C003C003C003C" :: ack :: OUTBOX w
        /\ _check_message_response (CB_MANAGER w') = true
        /\ _last_message (CB_MANAGER w') = limit "01003C003C003C003C")
    /\ (state = "81" ->
        OUTBOX w' = limit "01003C00A000A000A0" :: ack :: OUTBOX w
        /\ _check_message_response (CB_MANAGER w') = true
        /\ _last_message (CB_MANAGER w') = limit "01003C00A000A000A0")
    /\ (state <> "A7" -> state <> "81" ->
        OUTBOX w' = ack :: OUTBOX w
        /\ _check_message_response (CB_MANAGER w')
           = _check_message_response (CB_MANAGER w)
        /\ _last_message (CB_MANAGER w') = _last_message (CB_MANAGER w)).
Proof.
  apply (@charging_state_reply config.allowed_cards
           (mkPacket 0x80 0x01 0x6A "A700")
           (mkWorld 0 (Some []) false [] (mkCP 0 new 0 false) []));
    reflexivity.
Defined.

Lemma gtb_later (t now d : Z) :
  (t + d >? now)%Z = true <-> (now - t < d)%Z.
Proof. rewrite Z.gtb_ltb, Z.ltb_lt. lia. Qed.

Lemma gtb_not_later (t now d : Z) :
  (t + d >? now)%Z = false <-> (d <= now - t)%Z.
Proof. rewrite Z.gtb_ltb, Z.ltb_ge. lia. Qed.



(** C8, as stated, fails when a response is still awaited: in phase 1,
    five seconds after the last send, [timers] first resends
    [_last_message], which renews [_last_message_timestamp], and
    [_configure_charger] then finds the five seconds not yet over.  No
    [0x1B] is enqueued and the phase is still 1. *)
Lemma configuration_walk_counterexample :
  let restart := mkPacket ADDR_BROADCAST ADDR_CP 0x1E "" in
  let w := mkWorld (seconds 5) (Some []) false [] (mkCP 1 restart 0 true) [] in
  _charger_state (CB_MANAGER w) = 1
  /\ (seconds 5 <= clock w - _last_message_timestamp (CB_MANAGER w))%Z
  /\ exists w',
       manager.timers w = (Ok tt, w')
       /\ OUTBOX w' = [restart]
       /\ OUTBOX w' <> connection_state_request :: OUTBOX w
       /\ _charger_state (CB_MANAGER w') = 1.
Proof.
  split; [reflexivity|]. split; [vm_compute; discriminate|].
  eexists. split; [reflexivity|]. split; [reflexivity|].
  split; [discriminate | reflexivity].
Qed.

(** The state of the counterexample arises in operation: a charger that
    reports state ["A7"] is sent a [0x6B] request with response check, and
    registers again before it answers. *)
Example awaiting_in_phase1_is_reachable :
  let w0 := mkWorld 0 (Some []) false [] (mkCP 0 new 0 false) [] in
  let w1 := snd (manager.__init__ w0) in
  let w2 :=
    snd (manager.respond config.allowed_cards
           (mkPacket ADDR_CP ADDR_CHARGER 0x6A "A700") w1) in
  let w3 :=
    snd (manager.respond config.allowed_cards
           (mkPacket ADDR_CP ADDR_NEW 0x11 "1234567ABCD0003") w2) in
  _charger_state (CB_MANAGER w3) = 1
  /\ _check_message_response (CB_MANAGER w3) = true.
Proof. split; reflexivity. Qed.

(** C8, amended.  While no response is awaited: in phase 1, five seconds
    or more after the last send, [timers] enqueues the [0x1B] request to
    the charger with [dat = "0000003C" || "00"], without response check,
    and moves to phase 2; in phase 2 it enqueues the [0x34] request with
    the fixed [dat], with response check, and moves to phase 3; in phase 3
    it enqueues nothing and goes back to 0.  Before the five seconds are
    over nothing changes. *)
Theorem configuration_walk (w : World) :
  _check_message_response (CB_MANAGER w) = false ->
  let self := CB_MANAGER w in
  let elapsed := (clock w - _last_message_timestamp self)%Z in
  exists w',
    manager.timers w = (Ok tt, w')
    /\ ((seconds 5 <= elapsed)%Z -> _charger_state self = 1 ->
        OUTBOX w' = connection_state_request :: OUTBOX w
        /\ _charger_state (CB_MANAGER w') = 2
        /\ _check_message_response (CB_MANAGER w') = false
        /\ _last_message (CB_MANAGER w') = _last_message self)
    /\ ((seconds 5 <= elapsed)%Z -> _charger_state self = 2 ->
        OUTBOX w' = set_configuration_request :: OUTBOX w
        /\ _charger_state (CB_MANAGER w') = 3
        /\ _check_message_response (CB_MANAGER w') = true
        /\ _last_message (CB_MANAGER w') = set_configuration_request)
    /\ ((seconds 5 <= elapsed)%Z -> _charger_state self = 3 ->
        OUTBOX w' = OUTBOX w
        /\ _charger_state (CB_MANAGER w') = 0)
    /\ ((elapsed < seconds 5)%Z -> w' = w).
Proof.
  destruct w as [now h mon q [st lm ts fl] out]. proj. intros ->.
  run. unfold seconds. proj.
  destruct (0 <? st) eqn:Est; proj.
  - destruct (ts + 5 * 1000000 >? now)%Z eqn:E5; proj.
    + apply gtb_later in E5.
      eexists; split; [reflexivity|].
      repeat split; intros; try lia.
    + apply gtb_not_later in E5.
      destruct (st =? 1) eqn:E1; [|destruct (st =? 2) eqn:E2;
                                     [|destruct (st =? 3) eqn:E3]];
        proj; (eexists; split; [reflexivity|]); proj;
        rewrite ?N.eqb_eq, ?N.eqb_neq in *;
        repeat split; intros; subst; try lia; try discriminate;
        try reflexivity; try congruence.
  - apply N.ltb_ge in Est.
    eexists; split; [reflexivity|].
    repeat split; intros; try lia; try reflexivity.
Qed.

Lemma configuration_walk_witness :
  let restart := mkPacket ADDR_BROADCAST ADDR_CP 0x1E "" in
  let w :=
    mkWorld 5001000 (Some []) false [] (mkCP 1 restart 0 false) [] in
  exists w',
    manager.timers w = (Ok tt, w')
    /\ ((seconds 5 <= 5001000 - 0)%Z -> 1 = 1 ->
        OUTBOX w' = [connection_state_request]
        /\ _charger_state (CB_MANAGER w') = 2
        /\ _check_message_response (CB_MANAGER w') = false
        /\ _last_message (CB_MANAGER w') = restart)
    /\ ((seconds 5 <= 5001000 - 0)%Z -> 1 = 2 ->
        OUTBOX w' = [set_configuration_request]
        /\ _charger_state (CB_MANAGER w') = 3
        /\ _check_message_response (CB_MANAGER w') = true
        /\ _last_message (CB_MANAGER w') = set_configuration_request)
    /\ ((seconds 5 <= 5001000 - 0)%Z -> 1 = 3 ->
        OUTBOX w' = []
        /\ _charger_state (CB_MANAGER w') = 0)
    /\ ((5001000 - 0 < seconds 5)%Z -> w' = w).
Proof.
  apply (@configuration_walk
           (mkWorld 5001000 (Some []) false []
              (mkCP 1 (mkPacket ADDR_BROADCAST ADDR_CP 0x1E "") 0 false) [])).
  reflexivity.
Defined.

(** Whatever [respond] enqueues, it enqueues through [_send], which
    stamps the time. *)
Lemma reply_renews_timestamp
  (cards : list string) (message : Packet) (w w' : World) :
  manager.respond cards message w = (Ok tt, w') ->
  OUTBOX w' <> OUTBOX w ->
  _last_message_timestamp (CB_MANAGER w') = clock w.
Proof.
  destruct w as [now h mon q [st lm ts fl] out].
  unfold manager.respond.
  repeat match goal with
         | |- context [if ?c then _ else _] =>
             lazymatch c with
             | context [if _ then _ else _] => fail
             | _ => destruct c
             end
         end;
    try (destruct (py.hexint (py.str_slice 2 4 (dat message))));
    run; proj; intros H; inversion H; subst w'; proj;
    intros Hq; try reflexivity; try (now elim Hq).
Qed.

(** [timers] does nothing at all within two seconds of the last send. *)
Lemma timers_quiet (w : World) :
  (clock w - _last_message_timestamp (CB_MANAGER w) < seconds 2)%Z ->
  manager.timers w = (Ok tt, w).
Proof.
  destruct w as [now h mon q [st lm ts fl] out]. unfold seconds. proj.
  intros Hlt. run. unfold seconds. proj.
  assert ((ts + 2 * 1000000 >? now)%Z = true) as E2 by (apply gtb_later; lia).
  assert ((ts + 5 * 1000000 >? now)%Z = true) as E5 by (apply gtb_later; lia).
  destruct fl; proj; rewrite ?E2; proj;
    destruct (0 <? st); proj; rewrite ?E5; reflexivity.
Qed.

(** Within five seconds of the last send [timers] leaves the phase alone;
    at most it resends [_last_message]. *)
Lemma timers_gate (w w' : World) :
  (clock w - _last_message_timestamp (CB_MANAGER w) < seconds 5)%Z ->
  manager.timers w = (Ok tt, w') ->
  _charger_state (CB_MANAGER w') = _charger_state (CB_MANAGER w)
  /\ (OUTBOX w' = OUTBOX w
      \/ OUTBOX w' = _last_message (CB_MANAGER w) :: OUTBOX w).
Proof.
  destruct w as [now h mon q [st lm ts fl] out]. unfold seconds. proj.
  intros Hlt. run. unfold seconds. proj.
  assert ((ts + 5 * 1000000 >? now)%Z = true) as E5 by (apply gtb_later; lia).
  assert ((now + 5 * 1000000 >? now)%Z = true) as E5' by (apply gtb_later; lia).
  destruct fl; proj.
  - destruct (ts + 2 * 1000000 >? now)%Z; proj;
      destruct (0 <? st); proj; rewrite ?E5, ?E5';
      intros H; inversion H; subst w'; proj; auto.
  - destruct (0 <? st); proj; rewrite ?E5;
      intros H; inversion H; subst w'; proj; auto.
Qed.

(** C10.  [_send] without response check stamps
    [_last_message_timestamp] with the current time and leaves
    [_last_message], the response check and the phase as they were; every
    reply that [respond] enqueues does so.  Both gates of [timers] count
    from that one time stamp: for two seconds after it nothing is resent,
    and for five seconds after it the configuration walk does not move. *)
Theorem untracked_send_postpones_timers (p : Packet) (w : World) :
  (exists w',
     manager._send p false w = (Ok tt, w')
     /\ _last_message_timestamp (CB_MANAGER w') = clock w
     /\ _last_message (CB_MANAGER w') = _last_message (CB_MANAGER w)
     /\ _check_message_response (CB_MANAGER w')
        = _check_message_response (CB_MANAGER w)
     /\ _charger_state (CB_MANAGER w') = _charger_state (CB_MANAGER w)
     /\ OUTBOX w' = p :: OUTBOX w)
  /\ (forall cards message w',
        manager.respond cards message w = (Ok tt, w') ->
        OUTBOX w' <> OUTBOX w ->
        _last_message_timestamp (CB_MANAGER w') = clock w)
  /\ (forall w2,
        (clock w2 - _last_message_timestamp (CB_MANAGER w2) < seconds 2)%Z ->
        manager.timers w2 = (Ok tt, w2))
  /\ (forall w2 w3,
        (clock w2 - _last_message_timestamp (CB_MANAGER w2) < seconds 5)%Z ->
        manager.timers w2 = (Ok tt, w3) ->
        _charger_state (CB_MANAGER w3) = _charger_state (CB_MANAGER w2)
        /\ (OUTBOX w3 = OUTBOX w2
            \/ OUTBOX w3 = _last_message (CB_MANAGER w2) :: OUTBOX w2)).
Proof.
  split; [| split; [| split]].
  - destruct w as [now h mon q [st lm ts fl] out]. run. proj.
    eexists. split; [reflexivity|]. proj. repeat split.
  - intros cards message w'. apply reply_renews_timestamp.
  - apply timers_quiet.
  - apply timers_gate.
Qed.

(** A heartbeat answered one second before [timers] runs: the pending
    [0x6B] request, sent three seconds earlier, is not resent. *)
Example heartbeat_postpones_retransmission :
  let pending := mkPacket ADDR_CHARGER ADDR_CP 0x6B "01003C003C003C003C" in
  let heartbeat := mkPacket ADDR_CP ADDR_CHARGER 0x21 "" in
  let w := mkWorld (seconds 2) (Some []) false [] (mkCP 0 pending 0 true) [] in
  let w1 := snd (manager.respond config.allowed_cards heartbeat w) in
  let w2 := set_OUTBOX [] (set_clock (seconds 3) w1) in
  manager.timers w2 = (Ok tt, w2)
  /\ OUTBOX (snd (manager.timers (set_clock (seconds 3) w))) = [pending].
Proof. split; reflexivity. Qed.

(* ------------------------------------------------------------------ *)
(** ** The outbox *)

Lemma send_encode (p : Packet) (w : World) :
  main.send p w
  = match encode p with
    | Ok data => main.HANDLE_write data (before_write w)
    | Raise e => (Raise e, before_write w)
    end.
Proof.
  unfold main.send, encode, before_write. run. proj.
  destruct (frame._from_packet p) as [f|e]; simpl; [|reflexivity].
  destruct (frame.get_bytes f); reflexivity.
Qed.

Lemma pop_snoc {A} (q : list A) (x : A) : pop (q ++ [x]) = Some (x, q).
Proof.
  unfold pop. rewrite rev_app_distr. simpl. now rewrite rev_involutive.
Qed.

Lemma pop_all_rev {A} (l : list A) : pop_all (List.length l) (rev l) = l.
Proof.
  induction l as [|x l IH]; simpl; [reflexivity|].
  rewrite pop_snoc. now rewrite IH.
Qed.

(** A deque filled with [appendleft] and emptied with [pop] is a queue:
    first in, first out. *)
Lemma deque_fifo {A} (l : list A) :
  pop_all (List.length l) (fold_left (fun q x => appendleft x q) l []) = l.
Proof.
  assert (forall q, fold_left (fun q x => appendleft x q) l q = rev l ++ q)
    as F.
  { induction l as [|x l IH]; intros q; simpl; [reflexivity|].
    rewrite IH. unfold appendleft. now rewrite <- app_assoc. }
  rewrite F, app_nil_r. apply pop_all_rev.
Qed.

Lemma below_256 (P : N -> bool) :
  forallb P (map N.of_nat (seq 0 256)) = true ->
  forall s, s < 256 -> P s = true.
Proof.
  intros H s Hs. rewrite forallb_forall in H. apply H.
  apply in_map_iff. exists (N.to_nat s). split; [apply N2Nat.id|].
  apply in_seq. lia.
Qed.

(** The two-packet answers to [0x6A] always encode, whoever asked. *)
Lemma charging_replies_encode (s : N) :
  s < 256 ->
  is_ok (encode (mkPacket s ADDR_CP 0x6A "AA00")) = true
  /\ is_ok (encode (mkPacket s ADDR_CP 0x6B "01003C003C003C003C")) = true
  /\ is_ok (encode (mkPacket s ADDR_CP 0x6B "01003C00A000A000A0")) = true.
Proof.
  intros Hs.
  pose (P := fun s =>
    is_ok (encode (mkPacket s ADDR_CP 0x6A "AA00"))
    && is_ok (encode (mkPacket s ADDR_CP 0x6B "01003C003C003C003C"))
    && is_ok (encode (mkPacket s ADDR_CP 0x6B "01003C00A000A000A0"))).
  assert (P s = true) as H
    by (apply below_256; [vm_compute; reflexivity | assumption]).
  unfold P in H. apply andb_true_iff in H. destruct H as [H H3].
  apply andb_true_iff in H. tauto.
Qed.

(** C9.  When one call of [respond] enqueues two packets (a [0x6A]
    request whose state code is ["A7"] or ["81"]), the drain loop that
    follows writes them to the serial port in the order in which they were
    enqueued: the ["AA00"] reply first, the [0x6B] request second. *)
Theorem drain_keeps_insertion_order
  (cards : list string) (message : Packet) (w : World)
  (written : list (list byte)) (limits : string) :
  cmd message = 0x6A -> dst message = ADDR_CP -> src message < 256 ->
  (py.str_slice 0 2 (dat message) = "A7" /\ limits = "01003C003C003C003C"
   \/ py.str_slice 0 2 (dat message) = "81" /\ limits = "01003C00A000A000A0") ->
  OUTBOX w = [] -> HANDLE w = Some written ->
  let ack := mkPacket (src message) ADDR_CP 0x6A "AA00" in
  let limit := mkPacket (src message) ADDR_CP 0x6B limits in
  exists first second w1 w2,
    manager.respond cards message w = (Ok tt, w1)
    /\ OUTBOX w1 = appendleft limit (appendleft ack [])
    /\ encode ack = Ok first /\ encode limit = Ok second
    /\ main.drain_OUTBOX w1 = (Ok tt, w2)
    /\ HANDLE w2 = Some (written ++ [first; second])
    /\ OUTBOX w2 = [].
Proof.
  intros Hc Hd Hs Hstate Hq Hh ack limit.
  destruct (charging_replies_encode Hs) as (Ea & E1 & E2).
  fold ack in Ea.
  assert (is_ok (encode limit) = true) as El
    by (unfold limit; destruct Hstate as [[_ ->]|[_ ->]]; assumption).
  destruct (encode ack) as [first|] eqn:Hack; [|discriminate].
  destruct (encode limit) as [second|] eqn:Hlimit; [|discriminate].
  exists first, second.
  assert (exists w1,
            manager.respond cards message w = (Ok tt, w1)
            /\ OUTBOX w1 = [limit; ack] /\ HANDLE w1 = Some written) as R.
  { destruct w as [now h mon q cp out]. proj. subst q h.
    unfold manager.respond. rewrite Hc, Hd. dispatch.
    destruct Hstate as [[-> ->]|[-> ->]]; simpl String.eqb; cbv iota;
      run; proj; (eexists; split; [reflexivity|]); proj; split; reflexivity. }
  destruct R as (w1 & R & Q1 & H1). exists w1.
  destruct w1 as [now h mon q cp out]. proj. subst q h.
  unfold main.drain_OUTBOX. proj. cbn [List.length main.drain]. proj.
  cbn [pop rev app]. unfold bind.
  rewrite send_encode, Hack. unfold main.HANDLE_write, before_write. proj.
  cbn [pop rev app].
  rewrite send_encode, Hlimit. unfold main.HANDLE_write, before_write. proj.
  cbn [pop rev app]. unfold ret.
  eexists. split; [exact R|]. split; [reflexivity|].
  split; [reflexivity|]. split; [reflexivity|].
  split; [reflexivity|]. proj.
  split; [|reflexivity]. now rewrite <- app_assoc.
Qed.

Lemma drain_keeps_insertion_order_witness :
  let message := mkPacket 0x80 0x01 0x6A "A700" in
  let w := mkWorld 0 (Some []) false [] (mkCP 0 new 0 false) [] in
  let ack := mkPacket 0x01 ADDR_CP 0x6A "AA00" in
  let limit := mkPacket 0x01 ADDR_CP 0x6B "01003C003C003C003C" in
  exists first second w1 w2,
    manager.respond config.allowed_cards message w = (Ok tt, w1)
    /\ OUTBOX w1 = appendleft limit (appendleft ack [])
    /\ encode ack = Ok first /\ encode limit = Ok second
    /\ main.drain_OUTBOX w1 = (Ok tt, w2)
    /\ HANDLE w2 = Some ([] ++ [first; second])
    /\ OUTBOX w2 = [].
Proof.
  apply (@drain_keeps_insertion_order config.allowed_cards
           (mkPacket 0x80 0x01 0x6A "A700")
           (mkWorld 0 (Some []) false [] (mkCP 0 new 0 false) [])
           [] "01003C003C003C003C");
    try reflexivity.
  left. split; reflexivity.
Defined.

(* ------------------------------------------------------------------ *)
(** ** The frame scanner *)

Lemma value_errors_bind {A B} (m : outcome A) (k : A -> outcome B) :
  value_errors m -> (forall a, value_errors (k a)) -> value_errors (obind m k).
Proof.
  destruct m as [a|[err|]]; simpl; auto.
Qed.

Lemma value_errors_hexint (s : string) : value_errors (py.hexint s).
Proof.
  unfold py.hexint, py.fromhex. destruct (py.fromhex_go None s); exact I.
Qed.

Lemma value_errors_encode (s : string) : value_errors (py.encode_ascii s).
Proof. unfold py.encode_ascii. destruct (py.all_ascii s); exact I. Qed.

Lemma value_errors_decode (b : list byte) : value_errors (py.decode_ascii b).
Proof. unfold py.decode_ascii. destruct (forallb _ b); exact I. Qed.

Lemma value_errors_fields (p : Packet) (l : list (nat * nat)) :
  value_errors (fields p l).
Proof.
  induction l as [|[a b] l IH]; simpl; [exact I|].
  apply value_errors_bind; [apply value_errors_hexint | intros _; exact IH].
Qed.

Create HintDb value_errors.

#[local] Hint Resolve value_errors_hexint value_errors_encode
  value_errors_decode value_errors_fields : value_errors.

(** Closes a goal [value_errors e] by following the shape of [e]. *)
Ltac value_errors :=
  repeat first
    [ exact I
    | solve [auto with value_errors]
    | apply value_errors_bind; [| intros ?]
    | match goal with
      | |- value_errors (if ?c then _ else _) => destruct c
      | |- value_errors (match ?l with [] => _ | _ :: _ => _ end) =>
          destruct l
      end ].

Lemma value_errors_schema (p : Packet) : value_errors (schema p).
Proof. unfold schema, no_response, field. value_errors. Qed.

Lemma value_errors_print (p : Packet) : value_errors (_print p).
Proof.
  unfold _print, field.
  apply value_errors_bind; [apply value_errors_hexint | intros _].
  apply value_errors_bind; [apply value_errors_schema | intros errors].
  destruct errors; exact I.
Qed.

Lemma value_errors_from_payload (payload : list byte) :
  value_errors (from_payload payload).
Proof.
  unfold from_payload.
  apply value_errors_bind; [apply value_errors_decode | intros data].
  apply value_errors_bind; [apply value_errors_hexint | intros d].
  apply value_errors_bind; [apply value_errors_hexint | intros s].
  apply value_errors_bind; [apply value_errors_hexint | intros c].
  apply value_errors_bind; [apply value_errors_print | intros _; exact I].
Qed.

Lemma value_errors_validate (b : list byte) : value_errors (frame._validate b).
Proof.
  unfold frame._validate, frame._calculate_checksum, frame._calculate_parity.
  value_errors.
Qed.

(** Decoding a frame raises nothing but [ValueError]. *)
Lemma value_errors_decode_frame (frame_data : list byte) :
  value_errors (decode frame_data).
Proof.
  unfold decode, frame._from_bytes, frame.get_packet.
  apply value_errors_bind; [| intros f; apply value_errors_from_payload].
  apply value_errors_bind; [apply value_errors_validate | intros _; exact I].
Qed.

Lemma find_frames_loop_pass (fuel : nat) (data : list byte) (w : World) :
  main.find_frames_loop (S fuel) data w
  = match one_pass data w with
    | Returns r => Some r
    | Again data' w' => main.find_frames_loop fuel data' w'
    end.
Proof.
  unfold one_pass, at_start, logged. cbn [main.find_frames_loop].
  unfold print, modify, bind, ret. cbn [snd].
  destruct (py.find [x02] data <? 0)%Z; [reflexivity|].
  destruct (py.find [x02] data >? 0)%Z;
    (match goal with
     | |- context [(py.find [x03; xff] ?d <? 0)%Z] =>
         destruct (py.find [x03; xff] d <? 0)%Z; [reflexivity|]
     end);
    (match goal with
     | |- context [main.handle_frame ?f ?v] =>
         destruct (main.handle_frame f v) as [[[]|e] w']; [|reflexivity]
     end);
    match goal with
    | |- context [Nat.eqb ?k 0] => destruct (Nat.eqb k 0); reflexivity
    end.
Qed.

Lemma at_start_length (n : Z) (data : list byte) (w : World) :
  (List.length (fst (at_start n data w)) <= List.length data)%nat.
Proof.
  unfold at_start. destruct (n >? 0)%Z eqn:E; simpl; [|lia].
  rewrite slice_from_length; lia.
Qed.

(** Going round again always costs bytes. *)
Lemma again_shorter (data data' : list byte) (w w' : World) :
  one_pass data w = Again data' w' ->
  (List.length data' < List.length data)%nat.
Proof.
  unfold one_pass.
  destruct (py.find [x02] data <? 0)%Z; [discriminate|].
  pose proof (at_start_length (py.find [x02] data) data w) as L.
  destruct (at_start (py.find [x02] data) data w) as [d v]. simpl in L.
  destruct (py.find [x03; xff] d <? 0)%Z eqn:Em; [discriminate|].
  apply Z.ltb_ge in Em.
  destruct (main.handle_frame _ v) as [[[]|e] v']; [|discriminate].
  destruct (Nat.eqb _ 0) eqn:E0; [discriminate|].
  intros H; inversion H; subst data' w'; clear H.
  apply Nat.eqb_neq in E0.
  rewrite slice_from_length in * by lia. lia.
Qed.

(** The fuel [find_frames] starts with is never used up. *)
Lemma find_frames_loop_total (fuel : nat) :
  forall data w,
    (List.length data < fuel)%nat ->
    exists r, main.find_frames_loop fuel data w = Some r.
Proof.
  induction fuel as [|fuel IH]; intros data w Hlen; [lia|].
  rewrite find_frames_loop_pass.
  destruct (one_pass data w) as [r|data' w'] eqn:E; [now exists r|].
  apply IH. apply again_shorter in E. lia.
Qed.

(** More fuel than needed changes nothing. *)
Lemma find_frames_loop_fuel (fuel : nat) :
  forall fuel' data w,
    (List.length data < fuel)%nat -> (List.length data < fuel')%nat ->
    main.find_frames_loop fuel data w = main.find_frames_loop fuel' data w.
Proof.
  induction fuel as [|fuel IH]; intros fuel' data w H H'; [lia|].
  destruct fuel' as [|fuel']; [lia|].
  rewrite !find_frames_loop_pass.
  destruct (one_pass data w) as [r|data' w'] eqn:E; [reflexivity|].
  apply again_shorter in E. apply IH; lia.
Qed.

(** [find_frames], one pass at a time. *)
Lemma find_frames_pass (data : list byte) (w : World) :
  main.find_frames data w
  = match one_pass data w with
    | Returns r => Some r
    | Again data' w' => main.find_frames data' w'
    end.
Proof.
  unfold main.find_frames. rewrite find_frames_loop_pass.
  destruct (one_pass data w) as [r|data' w'] eqn:E; [reflexivity|].
  apply again_shorter in E. apply find_frames_loop_fuel; lia.
Qed.

Lemma handle_frame_rejected
  (frame_data : list byte) (w : World) (error : value_error) :
  decode frame_data = Raise (ValueError error) ->
  main.handle_frame frame_data w = (Ok tt, logged (ErrorLine error) w).
Proof.
  unfold main.handle_frame. fold (decode frame_data). intros ->. reflexivity.
Qed.

Lemma active_logged (e : event) (w : World) :
  main.active (logged e w) = main.active w.
Proof. reflexivity. Qed.

(** With no port to answer on, or in monitor mode, the [try] statement
    never lets an exception out and never wakes the actor. *)
Lemma handle_frame_idle (frame_data : list byte) (w : World) :
  main.active w = false ->
  exists w',
    main.handle_frame frame_data w = (Ok tt, w')
    /\ main.active w' = false
    /\ CB_MANAGER w' = CB_MANAGER w /\ OUTBOX w' = OUTBOX w
    /\ HANDLE w' = HANDLE w.
Proof.
  intros Hidle. unfold main.handle_frame. fold (decode frame_data).
  pose proof (value_errors_decode_frame frame_data) as V.
  destruct (decode frame_data) as [p|[error|]]; simpl in V; [| |contradiction].
  - rewrite Hidle. exists w. repeat split; assumption.
  - exists (logged (ErrorLine error) w). repeat split; assumption.
Qed.

Lemma find_frames_loop_idle (fuel : nat) :
  forall data w,
    (List.length data < fuel)%nat -> main.active w = false ->
    exists rest w',
      main.find_frames_loop fuel data w = Some (Ok rest, w')
      /\ CB_MANAGER w' = CB_MANAGER w /\ OUTBOX w' = OUTBOX w
      /\ HANDLE w' = HANDLE w.
Proof.
  induction fuel as [|fuel IH]; intros data w Hlen Hidle; [lia|].
  rewrite find_frames_loop_pass.
  destruct (one_pass data w) as [r|data' w'] eqn:E.
  - unfold one_pass in E.
    destruct (py.find [x02] data <? 0)%Z.
    { inversion E; subst r. do 2 eexists. repeat split. }
    assert (main.active (snd (at_start (py.find [x02] data) data w)) = false
            /\ CB_MANAGER (snd (at_start (py.find [x02] data) data w))
               = CB_MANAGER w
            /\ OUTBOX (snd (at_start (py.find [x02] data) data w)) = OUTBOX w
            /\ HANDLE (snd (at_start (py.find [x02] data) data w)) = HANDLE w)
      as (Hv & Hc & Hq & Hh)
      by (unfold at_start; destruct (_ >? 0)%Z; simpl; auto).
    destruct (at_start (py.find [x02] data) data w) as [d v]. simpl in *.
    destruct (py.find [x03; xff] d <? 0)%Z.
    { inversion E; subst r. do 2 eexists. repeat split; assumption. }
    destruct (handle_frame_idle (py.slice None (Some (py.find [x03; xff] d + 2)%Z) d) v Hv)
      as (v' & Hf & _ & Hc' & Hq' & Hh').
    rewrite Hf in E.
    destruct (Nat.eqb _ 0); [|discriminate].
    inversion E; subst r. do 2 eexists.
    repeat split; congruence.
  - pose proof (again_shorter _ _ E) as Hshort.
    unfold one_pass in E.
    destruct (py.find [x02] data <? 0)%Z; [discriminate|].
    assert (main.active (snd (at_start (py.find [x02] data) data w)) = false
            /\ CB_MANAGER (snd (at_start (py.find [x02] data) data w))
               = CB_MANAGER w
            /\ OUTBOX (snd (at_start (py.find [x02] data) data w)) = OUTBOX w
            /\ HANDLE (snd (at_start (py.find [x02] data) data w)) = HANDLE w)
      as (Hv & Hc & Hq & Hh)
      by (unfold at_start; destruct (_ >? 0)%Z; simpl; auto).
    destruct (at_start (py.find [x02] data) data w) as [d v]. simpl in *.
    destruct (py.find [x03; xff] d <? 0)%Z; [discriminate|].
    destruct (handle_frame_idle (py.slice None (Some (py.find [x03; xff] d + 2)%Z) d) v Hv)
      as (v' & Hf & Hv' & Hc' & Hq' & Hh').
    rewrite Hf in E.
    destruct (Nat.eqb _ 0); [discriminate|].
    inversion E; subst data' w'.
    match type of Hshort with
    | (List.length ?x < _)%nat =>
        destruct (IH x v') as (rest & w'' & R & A & B & C);
          [lia | exact Hv' |]
    end.
    exists rest, w''. repeat split; congruence.
Qed.

(** A closed frame that does not decode is reported and dropped, and the
    scan goes on behind its end marker. *)
Lemma scan_skips_rejected_frame
  (data : list byte) (w : World) (error : value_error) :
  let n := py.find [x02] data in
  let d := fst (at_start n data w) in
  let v := snd (at_start n data w) in
  let m := py.find [x03; xff] d in
  let frame_data := py.slice None (Some (m + 2)%Z) d in
  let rest := py.slice (Some (m + 2)%Z) None d in
  (0 <= n)%Z -> (0 <= m)%Z ->
  decode frame_data = Raise (ValueError error) ->
  main.find_frames data w
  = if Nat.eqb (List.length rest) 0
    then Some (Ok [], logged (ErrorLine error) v)
    else main.find_frames rest (logged (ErrorLine error) v).
Proof.
  intros n d v m frame_data rest Hn Hm Hdec.
  rewrite find_frames_pass. unfold one_pass. fold n.
  destruct (n <? 0)%Z eqn:En; [apply Z.ltb_lt in En; lia|].
  subst d v. destruct (at_start n data w) as [d v]. simpl in *. fold m.
  destruct (m <? 0)%Z eqn:Em; [apply Z.ltb_lt in Em; lia|].
  fold frame_data. fold rest.
  rewrite (handle_frame_rejected frame_data v Hdec).
  destruct (Nat.eqb (List.length rest) 0); reflexivity.
Qed.

(** Whatever the [try] statement did with a closed frame, if it came back
    the bytes up to and including the end marker are gone. *)
Lemma scan_consumes_frame (data : list byte) (w v' : World) :
  let n := py.find [x02] data in
  let d := fst (at_start n data w) in
  let v := snd (at_start n data w) in
  let m := py.find [x03; xff] d in
  let frame_data := py.slice None (Some (m + 2)%Z) d in
  let rest := py.slice (Some (m + 2)%Z) None d in
  (0 <= n)%Z -> (0 <= m)%Z ->
  main.handle_frame frame_data v = (Ok tt, v') ->
  main.find_frames data w
  = if Nat.eqb (List.length rest) 0 then Some (Ok [], v')
    else main.find_frames rest v'.
Proof.
  intros n d v m frame_data rest Hn Hm Hf.
  rewrite find_frames_pass. unfold one_pass. fold n.
  destruct (n <? 0)%Z eqn:En; [apply Z.ltb_lt in En; lia|].
  subst d v. destruct (at_start n data w) as [d v]. simpl in *. fold m.
  destruct (m <? 0)%Z eqn:Em; [apply Z.ltb_lt in Em; lia|].
  fold frame_data. fold rest. rewrite Hf.
  destruct (Nat.eqb (List.length rest) 0); reflexivity.
Qed.



(** A buffer with noise, a frame whose checksum is wrong, and the start of
    the next frame, scanned with replies on: the frame is reported and
    skipped, the tail is kept. *)
Example scan_damaged_frame :
  main.find_frames
    ([x41; x02] ++ list_byte_of_string "800121007909" ++ [x03; xff; x02; x31])
    live
  = Some (Ok [x02; x31],
          set_stdout
            [DataBeforeSof [x41];
             ErrorLine
               (FrameInvalid [InvalidChecksum; InvalidParity]
                  (x02 :: list_byte_of_string "800121007909" ++ [x03; xff]))]
            live).
Proof. reflexivity. Qed.

Lemma from_payload_header (payload : list byte) :
  from_payload payload
  = (p <- header payload ;; _print p ;;; Ok p)%outcome.
Proof.
  unfold from_payload, header.
  destruct (py.decode_ascii payload) as [data|]; simpl; [|reflexivity].
  destruct (py.hexint (py.str_slice 0 2 data)); simpl; [|reflexivity].
  destruct (py.hexint (py.str_slice 2 4 data)); simpl; [|reflexivity].
  destruct (py.hexint (py.str_slice 4 6 data)); simpl; reflexivity.
Qed.

(** A schema complaint makes [_print] raise. *)
Lemma print_raises (p : Packet) (errors : list schema_error) :
  schema p = Ok errors -> errors <> [] ->
  exists error, _print p = Raise (ValueError error).
Proof.
  intros Hs Hne. unfold _print. rewrite Hs.
  pose proof (value_errors_hexint (py.str_slice 0 4 (dat p))) as V.
  unfold field.
  destruct (py.hexint (py.str_slice 0 4 (dat p))) as [foo|[error|]];
    simpl in *; [| now exists error | contradiction].
  destruct errors; [congruence|]. now eexists.
Qed.

(** C2, as stated, fails: the envelope below is valid and the payload is a
    heartbeat ([0x21]) whose [dat] should be empty.  [_print] raises for
    the unexpected length, [find_frames] prints the error, and [respond]
    is not called: nothing is enqueued or written, the actor is as it
    was.  Had the packet been dispatched, a reply would have gone out. *)
Lemma schema_error_counterexample :
  let p := mkPacket 0x80 0x01 0x21 "00" in
  frame._validate long_heartbeat_frame = Ok true
  /\ header (payload_of long_heartbeat_frame) = Ok p
  /\ schema p = Ok [InvalidMessageLength 2 0]
  /\ main.find_frames long_heartbeat_frame live
     = Some (Ok [],
             logged (ErrorLine (Schema [InvalidMessageLength 2 0])) live)
  /\ OUTBOX (snd (manager.respond config.allowed_cards p live))
     = [mkPacket 0x01 0x80 0x21 ""].
Proof. repeat split. Qed.

(** C2, amended.  When the frame the scanner has closed has a valid
    envelope and its payload is a packet for which [_print] finds an
    unexpected [dat] length, decoding raises a [ValueError]; the scanner
    prints it and does not call [respond]: the actor, the outbox and the
    serial port stay as they are, and the scan goes on behind the frame. *)
Theorem schema_error_is_not_dispatched
  (data : list byte) (w : World) (p : Packet)
  (errors : list schema_error) (length expected : nat) :
  let n := py.find [x02] data in
  let d := fst (at_start n data w) in
  let v := snd (at_start n data w) in
  let m := py.find [x03; xff] d in
  let frame_data := py.slice None (Some (m + 2)%Z) d in
  let rest := py.slice (Some (m + 2)%Z) None d in
  (0 <= n)%Z -> (0 <= m)%Z ->
  frame._validate frame_data = Ok true ->
  header (payload_of frame_data) = Ok p ->
  schema p = Ok errors ->
  In (InvalidMessageLength length expected) errors ->
  exists error,
    decode frame_data = Raise (ValueError error)
    /\ CB_MANAGER (logged (ErrorLine error) v) = CB_MANAGER w
    /\ OUTBOX (logged (ErrorLine error) v) = OUTBOX w
    /\ HANDLE (logged (ErrorLine error) v) = HANDLE w
    /\ main.find_frames data w
       = if Nat.eqb (List.length rest) 0
         then Some (Ok [], logged (ErrorLine error) v)
         else main.find_frames rest (logged (ErrorLine error) v).
Proof.
  intros n d v m frame_data rest Hn Hm Hvalid Hhead Hschema Hin.
  destruct (@print_raises p errors Hschema) as [error Hp].
  { intros ->. exact Hin. }
  assert (decode frame_data = Raise (ValueError error)) as Hdec.
  { unfold decode, frame._from_bytes, frame.get_packet. rewrite Hvalid.
    simpl. fold (payload_of frame_data).
    rewrite from_payload_header, Hhead. simpl. rewrite Hp. reflexivity. }
  exists error. split; [exact Hdec|].
  assert (CB_MANAGER v = CB_MANAGER w /\ OUTBOX v = OUTBOX w
          /\ HANDLE v = HANDLE w) as (Hc & Hq & Hh)
    by (subst v; unfold at_start; destruct (n >? 0)%Z; simpl; auto).
  split; [exact Hc|]. split; [exact Hq|]. split; [exact Hh|].
  apply scan_skips_rejected_frame; assumption.
Qed.

Lemma schema_error_is_not_dispatched_witness :
  exists error,
    decode long_heartbeat_frame = Raise (ValueError error)
    /\ CB_MANAGER (logged (ErrorLine error) live) = CB_MANAGER live
    /\ OUTBOX (logged (ErrorLine error) live) = OUTBOX live
    /\ HANDLE (logged (ErrorLine error) live) = HANDLE live
    /\ main.find_frames long_heartbeat_frame live
       = if Nat.eqb (List.length (@nil byte)) 0
         then Some (Ok [], logged (ErrorLine error) live)
         else main.find_frames [] (logged (ErrorLine error) live).
Proof.
  apply (@schema_error_is_not_dispatched long_heartbeat_frame live
           (mkPacket 0x80 0x01 0x21 "00") [InvalidMessageLength 2 0] 2 0).
  - vm_compute. discriminate.
  - vm_compute. discriminate.
  - reflexivity.
  - reflexivity.
  - reflexivity.
  - left. reflexivity.
Defined.

(* ================================================================== *)
(** * Further properties of the code *)

(* ------------------------------------------------------------------ *)
(** ** Check digits *)

(** Two upper-case hex digits for every value below 256. *)
Lemma format_byte (n : N) :
  n < 256 ->
  exists h l,
    py.encode_ascii (py.format_0X 2 n) = Ok [h; l]
    /\ is_hex_upper h = true /\ is_hex_upper l = true.
Proof.
  intros Hn.
  pose (P := fun n =>
    match py.encode_ascii (py.format_0X 2 n) with
    | Ok [h; l] => is_hex_upper h && is_hex_upper l
    | _ => false
    end).
  assert (P n = true) as H
    by (apply below_256; [vm_compute; reflexivity | assumption]).
  unfold P in H.
  destruct (py.encode_ascii (py.format_0X 2 n)) as [[|h [|l [|]]]|];
    try discriminate.
  apply andb_true_iff in H. exists h, l. tauto.
Qed.

Lemma lxor_below_256 (a b : N) : a < 256 -> b < 256 -> N.lxor a b < 256.
Proof.
  intros Ha Hb. change 256 with (2 ^ 8) in *.
  destruct (N.eq_dec (N.lxor a b) 0) as [->|Hne]; [reflexivity|].
  apply N.log2_lt_pow2; [lia|].
  pose proof (N.log2_lxor a b) as L.
  assert (N.log2 a < 8) as La.
  { destruct (N.eq_dec a 0) as [->|]; [reflexivity|].
    apply N.log2_lt_pow2; [lia | assumption]. }
  assert (N.log2 b < 8) as Lb.
  { destruct (N.eq_dec b 0) as [->|]; [reflexivity|].
    apply N.log2_lt_pow2; [lia | assumption]. }
  lia.
Qed.

Lemma parity_below_256 (payload : list byte) (acc : N) :
  acc < 256 ->
  fold_left (fun parity b => N.lxor parity (Byte.to_N b)) payload acc < 256.
Proof.
  revert acc; induction payload as [|b payload IH]; intros acc Hacc; simpl;
    [assumption|].
  apply IH. apply lxor_below_256; [assumption|].
  pose proof (Byte.to_N_bounded b). lia.
Qed.

Lemma checksum_digits (payload : list byte) :
  exists h l,
    frame._calculate_checksum payload = Ok [h; l]
    /\ is_hex_upper h = true /\ is_hex_upper l = true.
Proof.
  unfold frame._calculate_checksum. apply format_byte.
  apply N.mod_lt. discriminate.
Qed.

Lemma parity_digits (payload : list byte) :
  exists h l,
    frame._calculate_parity payload = Ok [h; l]
    /\ is_hex_upper h = true /\ is_hex_upper l = true.
Proof.
  unfold frame._calculate_parity. apply format_byte.
  apply parity_below_256. reflexivity.
Qed.

(* ------------------------------------------------------------------ *)
(** ** The frame encoder *)

Lemma seg_app_left {A} (a b : nat) (l1 l2 : list A) :
  (b <= List.length l1)%nat -> seg a b (l1 ++ l2) = seg a b l1.
Proof.
  intros Hb. unfold seg.
  destruct (Nat.le_gt_cases a (List.length l1)) as [Ha|Ha].
  - rewrite skipn_app. replace (a - List.length l1)%nat with 0%nat by lia.
    simpl. rewrite firstn_app.
    replace (b - a - List.length (skipn a l1))%nat with 0%nat
      by (rewrite length_skipn; lia).
    simpl. apply app_nil_r.
  - replace (b - a)%nat with 0%nat by lia. reflexivity.
Qed.

Lemma seg_app_right {A} (a b : nat) (l1 l2 : list A) :
  seg (List.length l1 + a) (List.length l1 + b) (l1 ++ l2) = seg a b l2.
Proof.
  unfold seg. rewrite skipn_app.
  rewrite (skipn_all2 l1) by lia. simpl.
  f_equal; [lia | f_equal; lia].
Qed.

(** The five regions that [_validate] cuts out of a frame built by
    [get_bytes]. *)
Lemma framed_regions (payload : list byte) (c1 c2 p1 p2 : byte) :
  let data := framed payload [c1; c2] [p1; p2] in
  List.length data = (List.length payload + 7)%nat
  /\ py.slice (Some 0%Z) (Some 1%Z) data = [x02]
  /\ py.slice (Some (-2)%Z) None data = [x03; xff]
  /\ py.slice (Some 1%Z) (Some (-6)%Z) data = payload
  /\ py.slice (Some (-6)%Z) (Some (-4)%Z) data = [c1; c2]
  /\ py.slice (Some (-4)%Z) (Some (-2)%Z) data = [p1; p2].
Proof.
  intros data.
  set (L := List.length payload).
  assert (List.length data = (L + 7)%nat) as Hlen
    by (unfold data, framed; simpl; rewrite length_app; simpl; fold L; lia).
  assert (data = ([x02] ++ payload) ++ [c1; c2; p1; p2; x03; xff]) as Hsplit
    by (unfold data, framed; simpl; reflexivity).
  assert (List.length ([x02] ++ payload) = (L + 1)%nat) as Hpre
    by (simpl; fold L; lia).
  split; [exact Hlen|].
  split.
  { rewrite (@slice_seg _ (Some 0%Z) (Some 1%Z) data 0 1);
      [reflexivity
      | unfold resolve_start, py.bound; rewrite Hlen; simpl; lia
      | unfold resolve_stop, py.bound; rewrite Hlen; simpl; lia]. }
  split.
  { rewrite (@slice_seg _ (Some (-2)%Z) None data (L + 1 + 4) (L + 1 + 6));
      [| unfold resolve_start, py.bound; rewrite Hlen; simpl; lia
       | unfold resolve_stop, py.bound; rewrite Hlen; simpl; lia].
    rewrite Hsplit, <- Hpre. rewrite seg_app_right. reflexivity. }
  split.
  { rewrite (@slice_seg _ (Some 1%Z) (Some (-6)%Z) data 1 (L + 1));
      [| unfold resolve_start, py.bound; rewrite Hlen; simpl; lia
       | unfold resolve_stop, py.bound; rewrite Hlen; simpl; lia].
    unfold data, framed.
    change 1%nat with (List.length [x02] + 0)%nat at 1.
    replace (L + 1)%nat with (List.length [x02] + L)%nat by (simpl; lia).
    rewrite seg_app_right, seg_app_left by (fold L; lia).
    apply seg_all. }
  split.
  { rewrite (@slice_seg _ (Some (-6)%Z) (Some (-4)%Z) data (L + 1 + 0) (L + 1 + 2));
      [| unfold resolve_start, py.bound; rewrite Hlen; simpl; lia
       | unfold resolve_stop, py.bound; rewrite Hlen; simpl; lia].
    rewrite Hsplit, <- Hpre. rewrite seg_app_right. reflexivity. }
  { rewrite (@slice_seg _ (Some (-4)%Z) (Some (-2)%Z) data (L + 1 + 2) (L + 1 + 4));
      [| unfold resolve_start, py.bound; rewrite Hlen; simpl; lia
       | unfold resolve_stop, py.bound; rewrite Hlen; simpl; lia].
    rewrite Hsplit, <- Hpre. rewrite seg_app_right. reflexivity. }
Qed.

(** A payload of permitted values holds neither marker. *)
Lemma permitted_no_markers (payload : list byte) :
  forallb frame.payload_value_ok payload = true ->
  py.contains x02 payload = false /\ py.contains x03 payload = false.
Proof.
  induction payload as [|b payload IH]; simpl; [auto|].
  intros H. apply andb_true_iff in H. destruct H as [Hb Hrest].
  destruct (IH Hrest) as [-> ->].
  split; destruct b; try reflexivity; discriminate Hb.
Qed.

Lemma flat_map_values_nil (payload : list byte) :
  forallb frame.payload_value_ok payload = true ->
  flat_map (fun b => if frame.payload_value_ok b then []
                     else [InvalidPayloadValue b]) payload = [].
Proof.
  induction payload as [|b payload IH]; simpl; [reflexivity|].
  intros H. apply andb_true_iff in H. destruct H as [-> Hrest].
  simpl. auto.
Qed.

(** What [get_bytes] returns, [Frame(bytes)] accepts, and the payload it
    extracts is the one that was framed. *)
Lemma get_bytes_from_bytes (f : frame.Frame) (b : list byte) :
  frame.get_bytes f = Ok b -> frame._from_bytes b = Ok f.
Proof.
  destruct f as [payload]. intros Hb.
  destruct (checksum_digits payload) as (c1 & c2 & Hc & _).
  destruct (parity_digits payload) as (p1 & p2 & Hp & _).
  destruct (framed_regions payload c1 c2 p1 p2)
    as (_ & _ & _ & Hpay & _ & _).
  unfold frame.get_bytes in Hb. simpl in Hb. rewrite Hc, Hp in Hb.
  simpl in Hb.
  change (x02 :: payload ++ [c1; c2; p1; p2; x03; xff])
    with (framed payload [c1; c2] [p1; p2]) in Hb.
  destruct (frame._validate (framed payload [c1; c2] [p1; p2])) as [r|] eqn:V;
    [|discriminate].
  inversion Hb; subst b.
  unfold frame._from_bytes. rewrite V. simpl obind. now rewrite Hpay.
Qed.

(** X2.  [get_bytes] returns a frame exactly for payloads of six bytes or
    more whose bytes are all [0x00], ['0'..'9'] or ['A'..'Z']; for any
    other payload its own [_validate] makes it raise.  The frame is the
    start marker, the payload, two checksum digits, two parity digits and
    the end marker, seven bytes more than the payload, and [Frame(bytes)]
    reads the payload back from it. *)
Theorem encoder_acceptance (payload : list byte) :
  ((6 <= List.length payload)%nat
   /\ forallb frame.payload_value_ok payload = true
   <-> exists b, frame.get_bytes (frame.mkFrame payload) = Ok b)
  /\ (forall b,
        frame.get_bytes (frame.mkFrame payload) = Ok b ->
        exists checksum parity,
          frame._calculate_checksum payload = Ok checksum
          /\ frame._calculate_parity payload = Ok parity
          /\ b = framed payload checksum parity
          /\ List.length b = (List.length payload + 7)%nat
          /\ frame._from_bytes b = Ok (frame.mkFrame payload)).
Proof.
  destruct (checksum_digits payload) as (c1 & c2 & Hc & _).
  destruct (parity_digits payload) as (p1 & p2 & Hp & _).
  destruct (framed_regions payload c1 c2 p1 p2)
    as (Hlen & Hstart & Hend & Hpay & Hcs & Hpar).
  assert (frame.get_bytes (frame.mkFrame payload)
          = obind (frame._validate (framed payload [c1; c2] [p1; p2]))
              (fun _ => Ok (framed payload [c1; c2] [p1; p2]))) as Hget
    by (unfold frame.get_bytes; simpl; rewrite Hc, Hp; reflexivity).
  split; [split|].
  - intros [Hsix Hvals]. exists (framed payload [c1; c2] [p1; p2]).
    rewrite Hget. unfold frame._validate.
    rewrite Hlen, Hstart, Hend, Hpay, Hcs, Hpar, Hc, Hp. simpl obind.
    destruct (permitted_no_markers payload Hvals) as [-> ->].
    rewrite (flat_map_values_nil payload Hvals).
    rewrite !(proj2 (byte_eqb_eq _ _) eq_refl).
    replace (List.length payload + 7 <? 13)%nat with false
      by (symmetry; apply Nat.ltb_ge; lia).
    reflexivity.
  - intros [b Hb]. rewrite Hget in Hb.
    destruct (frame._validate (framed payload [c1; c2] [p1; p2])) as [r|]
      eqn:V; [|discriminate].
    destruct (@validate_ok_inv _ r V) as [_ (c & p & W)].
    destruct W. unfold payload_of in *. rewrite Hpay in *.
    split; [lia | assumption].
  - intros b Hb. pose proof (@get_bytes_from_bytes _ _ Hb) as Hback.
    rewrite Hget in Hb.
    destruct (frame._validate (framed payload [c1; c2] [p1; p2]));
      [|discriminate].
    inversion Hb; subst b. exists [c1; c2], [p1; p2]. auto 6.
Qed.


(* ------------------------------------------------------------------ *)
(** ** Frames in the scanner's buffer *)

Lemma startswith_app (l r : list byte) : py.startswith l (l ++ r) = true.
Proof.
  induction l as [|a l IH]; simpl; [reflexivity|].
  rewrite IH, (proj2 (byte_eqb_eq a a) eq_refl). reflexivity.
Qed.

Lemma find_cons (sub : list byte) (a : byte) (data : list byte) :
  py.find sub (a :: data)
  = if py.startswith sub (a :: data) then 0%Z
    else let k := py.find sub data in
         if (k <? 0)%Z then (-1)%Z else (k + 1)%Z.
Proof. reflexivity. Qed.

(** [find] skips a prefix that does not hold the first byte sought. *)
Lemma find_after (s : byte) (sub pre rest : list byte) :
  py.contains s pre = false ->
  py.find (s :: sub) (pre ++ (s :: sub) ++ rest) = Z.of_nat (List.length pre).
Proof.
  induction pre as [|a pre IH]; intros Hpre.
  - change ([] ++ (s :: sub) ++ rest) with (s :: (sub ++ rest)).
    rewrite find_cons.
    change (s :: sub ++ rest) with ((s :: sub) ++ rest).
    rewrite startswith_app. reflexivity.
  - simpl in Hpre. apply orb_false_iff in Hpre. destruct Hpre as [Ha Hpre].
    specialize (IH Hpre).
    change ((a :: pre) ++ (s :: sub) ++ rest)
      with (a :: (pre ++ (s :: sub) ++ rest)).
    rewrite find_cons. simpl py.startswith. rewrite Ha. simpl andb.
    cbv zeta. rewrite IH.
    destruct (Z.of_nat (List.length pre) <? 0)%Z eqn:E;
      [apply Z.ltb_lt in E; lia|].
    simpl List.length. lia.
Qed.

Lemma slice_prefix {A} (a b : list A) :
  py.slice None (Some (Z.of_nat (List.length a))) (a ++ b) = a.
Proof.
  rewrite (@slice_seg _ None (Some (Z.of_nat (List.length a))) (a ++ b)
             0 (List.length a)).
  - rewrite seg_app_left by lia. apply seg_all.
  - reflexivity.
  - unfold resolve_stop, py.bound. rewrite length_app.
    destruct (Z.of_nat (List.length a) <? 0)%Z eqn:E;
      [apply Z.ltb_lt in E|]; lia.
Qed.

Lemma slice_suffix {A} (a b : list A) :
  py.slice (Some (Z.of_nat (List.length a))) None (a ++ b) = b.
Proof.
  rewrite (@slice_seg _ (Some (Z.of_nat (List.length a))) None (a ++ b)
             (List.length a + 0) (List.length a + List.length b)).
  - rewrite seg_app_right. apply seg_all.
  - unfold resolve_start, py.bound. rewrite length_app.
    destruct (Z.of_nat (List.length a) <? 0)%Z eqn:E;
      [apply Z.ltb_lt in E|]; lia.
  - unfold resolve_stop. rewrite length_app. lia.
Qed.

Lemma hex_upper_not_eof (c : byte) :
  is_hex_upper c = true -> py.byte_eqb x03 c = false.
Proof. destruct c; try reflexivity; discriminate. Qed.

(** An accepted frame holds its end marker at the end and nowhere
    before. *)
Lemma valid_frame_end (b tail : list byte) :
  frame._validate b = Ok true ->
  py.find [x02] (b ++ tail) = 0%Z
  /\ py.find [x03; xff] (b ++ tail) = (Z.of_nat (List.length b) - 2)%Z
  /\ (2 <= List.length b)%nat.
Proof.
  intros V. destruct (@validate_ok_inv b true V) as [_ (c & p & W)].
  pose proof (@well_framed_regions b c p W) as R.
  destruct (checksum_digits (payload_of b)) as (c1 & c2 & Hc & Hc1 & Hc2).
  destruct (parity_digits (payload_of b)) as (p1 & p2 & Hp & Hp1 & Hp2).
  rewrite (wf_checksum_calc W) in Hc. rewrite (wf_parity_calc W) in Hp.
  inversion Hc; inversion Hp; subst c p; clear Hc Hp.
  set (pre := [x02] ++ payload_of b ++ [c1; c2] ++ [p1; p2]).
  assert (b = pre ++ [x03; xff]) as Hb
    by (rewrite R at 1; unfold pre; rewrite <- !app_assoc; reflexivity).
  assert (py.contains x03 pre = false) as Hpre.
  { unfold pre, py.contains. rewrite !existsb_app. simpl.
    fold (py.contains x03 (payload_of b)). rewrite (wf_no_eof W).
    rewrite !hex_upper_not_eof by assumption. reflexivity. }
  split; [| split].
  - rewrite R. reflexivity.
  - rewrite Hb, <- app_assoc.
    rewrite (@find_after x03 [xff] pre tail Hpre).
    rewrite length_app. change (List.length [x03; xff]) with 2%nat. lia.
  - rewrite Hb, length_app. change (List.length [x03; xff]) with 2%nat. lia.
Qed.

(** X3.  A frame that [_validate] accepts is found whole wherever it lies
    in the buffer: bytes before it that hold no start marker are reported
    and cut, the frame goes to the [try] statement unbroken, and the scan
    goes on with what follows it. *)
Theorem scanner_locates_frame (junk b tail : list byte) (w : World) :
  py.contains x02 junk = false ->
  frame._validate b = Ok true ->
  let v := match junk with
           | [] => w
           | _ :: _ => logged (DataBeforeSof junk) w
           end in
  main.find_frames (junk ++ b ++ tail) w
  = match main.handle_frame b v with
    | (Raise e, v') => Some (Raise e, v')
    | (Ok _, v') =>
        match tail with
        | [] => Some (Ok [], v')
        | _ :: _ => main.find_frames tail v'
        end
    end.
Proof.
  intros Hjunk V v.
  destruct (valid_frame_end b tail V) as (Hsof & Heof & Hlen2).
  assert (py.find [x02] (junk ++ b ++ tail) = Z.of_nat (List.length junk)) as Hn.
  { destruct (@validate_ok_inv b true V) as [_ (c & p & W)].
    rewrite (@well_framed_regions b c p W), <- !app_assoc.
    apply (@find_after x02 [] junk _ Hjunk). }
  assert (at_start (Z.of_nat (List.length junk)) (junk ++ b ++ tail) w
          = (b ++ tail, v)) as Hat.
  { unfold at_start, v. destruct junk as [|a junk]; [reflexivity|].
    replace (Z.of_nat (List.length (a :: junk)) >? 0)%Z with true
      by (symmetry; apply Z.gtb_lt; simpl List.length; lia).
    now rewrite slice_suffix, slice_prefix. }
  rewrite find_frames_pass. unfold one_pass. rewrite Hn.
  replace (Z.of_nat (List.length junk) <? 0)%Z with false
    by (symmetry; apply Z.ltb_ge; lia).
  rewrite Hat, Heof.
  replace (Z.of_nat (List.length b) - 2 <? 0)%Z with false
    by (symmetry; apply Z.ltb_ge; lia).
  replace (Z.of_nat (List.length b) - 2 + 2)%Z with (Z.of_nat (List.length b))
    by lia.
  rewrite slice_prefix, slice_suffix.
  destruct (main.handle_frame b v) as [[[]|e] v']; [|reflexivity].
  destruct tail; reflexivity.
Qed.

Lemma scanner_locates_frame_witness :
  let b := x02 :: list_byte_of_string "800121008C0A" ++ [x03; xff] in
  main.find_frames ([x41; x42] ++ b ++ [x02; x31]) live
  = match main.handle_frame b (logged (DataBeforeSof [x41; x42]) live) with
    | (Raise e, v') => Some (Raise e, v')
    | (Ok _, v') => main.find_frames [x02; x31] v'
    end.
Proof.
  apply (@scanner_locates_frame [x41; x42]
           (x02 :: list_byte_of_string "800121008C0A" ++ [x03; xff])
           [x02; x31] live);
    reflexivity.
Defined.

(* ------------------------------------------------------------------ *)
(** ** What the scanner hands back *)

Lemma find_startswith (sub data : list byte) :
  py.startswith sub data = true -> py.find sub data = 0%Z.
Proof.
  intros H. destruct data as [|a data].
  - simpl. now rewrite H.
  - rewrite find_cons. now rewrite H.
Qed.

(** Where [find] says the bytes are, they are. *)
Lemma find_found (sub data : list byte) :
  forall n, py.find sub data = n -> (0 <= n)%Z ->
            py.startswith sub (skipn (Z.to_nat n) data) = true.
Proof.
  induction data as [|a data IH]; intros n Hn Hpos.
  - simpl in Hn. destruct (py.startswith sub []) eqn:E; [|lia].
    subst n. exact E.
  - rewrite find_cons in Hn.
    destruct (py.startswith sub (a :: data)) eqn:E.
    + subst n. exact E.
    + cbv zeta in Hn.
      destruct (py.find sub data <? 0)%Z eqn:Ek; [lia|].
      apply Z.ltb_ge in Ek.
      replace (Z.to_nat n) with (S (Z.to_nat (py.find sub data))) by lia.
      simpl skipn. now apply IH.
Qed.

Lemma slice_from_skipn {A} (n : Z) (l : list A) :
  (0 <= n)%Z -> py.slice (Some n) None l = skipn (Z.to_nat n) l.
Proof.
  intros Hn. unfold py.slice, py.bound.
  destruct (n <? 0)%Z eqn:E; [apply Z.ltb_lt in E; lia|].
  destruct (Z_le_gt_dec n (Z.of_nat (List.length l))) as [Hle|Hgt].
  - rewrite Z.min_r by lia. apply firstn_all2. rewrite length_skipn. lia.
  - rewrite Z.min_l by lia. rewrite Nat2Z.id.
    rewrite !skipn_all2 by lia. apply firstn_nil.
Qed.

Lemma slice_from_suffix {A} (n : Z) (l : list A) :
  (0 <= n)%Z -> exists pre, l = pre ++ py.slice (Some n) None l.
Proof.
  intros Hn. exists (firstn (Z.to_nat n) l).
  rewrite slice_from_skipn by assumption. symmetry. apply firstn_skipn.
Qed.

(** The buffer as it stands after bytes before the start marker are cut. *)
Lemma at_start_marker (data : list byte) (w : World) :
  let n := py.find [x02] data in
  (0 <= n)%Z ->
  py.startswith [x02] (fst (at_start n data w)) = true
  /\ exists pre, data = pre ++ fst (at_start n data w).
Proof.
  intros n Hn. pose proof (@find_found [x02] data n eq_refl Hn) as F.
  unfold at_start. destruct (n >? 0)%Z eqn:E; simpl fst.
  - rewrite slice_from_skipn by assumption. split; [exact F|].
    exists (firstn (Z.to_nat n) data). symmetry. apply firstn_skipn.
  - assert (n = 0%Z) as E0 by (rewrite Z.gtb_ltb in E; apply Z.ltb_ge in E; lia).
    rewrite E0 in F. split; [exact F | now exists []].
Qed.

(** A buffer that opens with a start marker and holds no end marker is
    handed back as it is. *)
Lemma open_frame_kept (rest : list byte) (w : World) :
  py.startswith [x02] rest = true ->
  (py.find [x03; xff] rest < 0)%Z ->
  main.find_frames rest w = Some (Ok rest, w).
Proof.
  intros Hs Hm. rewrite find_frames_pass. unfold one_pass.
  rewrite (find_startswith _ _ Hs).
  change (0 <? 0)%Z with false. unfold at_start.
  change (0 >? 0)%Z with false. cbv beta iota zeta.
  apply Z.ltb_lt in Hm. rewrite Hm. reflexivity.
Qed.

Lemma find_frames_loop_remainder (fuel : nat) :
  forall data w rest w',
    main.find_frames_loop fuel data w = Some (Ok rest, w') ->
    (rest = []
     \/ py.startswith [x02] rest = true /\ (py.find [x03; xff] rest < 0)%Z)
    /\ exists pre, data = pre ++ rest.
Proof.
  induction fuel as [|fuel IH]; intros data w rest w' H; [discriminate|].
  rewrite find_frames_loop_pass in H.
  destruct (one_pass data w) as [r|data' w''] eqn:E.
  - inversion H; subst r; clear H. unfold one_pass in E.
    destruct (py.find [x02] data <? 0)%Z eqn:En.
    { inversion E; subst. split; [now left | exists data; now rewrite app_nil_r]. }
    apply Z.ltb_ge in En.
    destruct (at_start_marker data w En) as [Hs Hpre].
    destruct (at_start (py.find [x02] data) data w) as [d v]. simpl fst in *.
    destruct (py.find [x03; xff] d <? 0)%Z eqn:Em.
    { inversion E; subst. apply Z.ltb_lt in Em. split; [right; auto | exact Hpre]. }
    destruct (main.handle_frame _ v) as [[[]|e] v']; [|discriminate].
    destruct (Nat.eqb _ 0); [|discriminate].
    inversion E; subst. split; [now left | exists data; now rewrite app_nil_r].
  - destruct (IH _ _ _ _ H) as [Hshape [pre Hpre]]. split; [exact Hshape|].
    unfold one_pass in E.
    destruct (py.find [x02] data <? 0)%Z eqn:En; [discriminate|].
    apply Z.ltb_ge in En.
    destruct (at_start_marker data w En) as [_ [pre1 Hpre1]].
    destruct (at_start (py.find [x02] data) data w) as [d v]. simpl fst in *.
    destruct (py.find [x03; xff] d <? 0)%Z eqn:Em; [discriminate|].
    apply Z.ltb_ge in Em.
    destruct (main.handle_frame _ v) as [[[]|e] v']; [|discriminate].
    destruct (Nat.eqb _ 0); [discriminate|].
    inversion E as [[Hd Hw]]. rewrite <- Hd in Hpre.
    destruct (@slice_from_suffix _ (py.find [x03; xff] d + 2)%Z d ltac:(lia))
      as [pre2 Hpre2].
    exists (pre1 ++ pre2 ++ pre).
    rewrite Hpre1 at 1. rewrite Hpre2 at 1. rewrite Hpre at 1.
    now rewrite <- !app_assoc.
Qed.

(** X4.  Whatever [find_frames] returns is the tail end of the buffer it
    was given, and it is either empty or an unfinished frame: it opens
    with the start marker and holds no end marker.  Scanning an unfinished
    frame again, with no new bytes, returns it unchanged and does nothing
    else. *)
Theorem scanner_remainder (data rest : list byte) (w w' : World) :
  main.find_frames data w = Some (Ok rest, w') ->
  (exists consumed, data = consumed ++ rest)
  /\ (rest = []
      \/ py.startswith [x02] rest = true
         /\ (py.find [x03; xff] rest < 0)%Z
         /\ main.find_frames rest w' = Some (Ok rest, w')).
Proof.
  intros H.
  destruct (@find_frames_loop_remainder _ data w rest w' H) as [Hshape Hpre].
  split; [exact Hpre|].
  destruct Hshape as [->|[Hs Hm]]; [now left | right].
  split; [exact Hs|]. split; [exact Hm|]. now apply open_frame_kept.
Qed.

Lemma scanner_remainder_witness :
  (exists consumed,
     [x41; x02] ++ list_byte_of_string "800121007909" ++ [x03; xff; x02; x31]
     = consumed ++ [x02; x31])
  /\ ([x02; x31] = []
      \/ py.startswith [x02] [x02; x31] = true
         /\ (py.find [x03; xff] [x02; x31] < 0)%Z
         /\ main.find_frames [x02; x31]
              (set_stdout
                 [DataBeforeSof [x41];
                  ErrorLine
                    (FrameInvalid [InvalidChecksum; InvalidParity]
                       (x02 :: list_byte_of_string "800121007909"
                          ++ [x03; xff]))]
                 live)
            = Some (Ok [x02; x31],
                    set_stdout
                      [DataBeforeSof [x41];
                       ErrorLine
                         (FrameInvalid [InvalidChecksum; InvalidParity]
                            (x02 :: list_byte_of_string "800121007909"
                               ++ [x03; xff]))]
                      live)).
Proof.
  apply (@scanner_remainder
           ([x41; x02] ++ list_byte_of_string "800121007909"
              ++ [x03; xff; x02; x31])
           [x02; x31] live).
  reflexivity.
Defined.

(* ------------------------------------------------------------------ *)
(** ** The packet codec *)

Lemma string_length_append (a b : string) :
  String.length (a ++ b) = (String.length a + String.length b)%nat.
Proof. induction a as [|c a IH]; simpl; [reflexivity | now rewrite IH]. Qed.

Lemma substring_whole (s : string) : substring 0 (String.length s) s = s.
Proof. induction s as [|c s IH]; simpl; [reflexivity | now rewrite IH]. Qed.

Lemma substring_append_left (a b : string) :
  substring 0 (String.length a) (a ++ b) = a.
Proof.
  induction a as [|c a IH]; simpl.
  - destruct b; reflexivity.
  - now rewrite IH.
Qed.

Lemma substring_append_right (a b : string) (n m : nat) :
  substring (String.length a + n) m (a ++ b) = substring n m b.
Proof. induction a as [|c a IH]; simpl; [reflexivity | exact IH]. Qed.

Lemma substring_length_le (n m : nat) (s : string) :
  (String.length (substring n m s) <= m)%nat.
Proof.
  revert n m; induction s as [|c s IH]; intros n m.
  - destruct n, m; simpl; lia.
  - destruct n as [|n]; [destruct m as [|m]|]; simpl; [lia | | apply IH].
    specialize (IH 0%nat m). lia.
Qed.

Lemma byte_of_ascii_value (c : ascii) :
  Byte.to_N (byte_of_ascii c) = N_of_ascii c.
Proof. destruct c as [[] [] [] [] [] [] [] []]; reflexivity. Qed.

Lemma ascii_of_byte_value (b : byte) :
  N_of_ascii (ascii_of_byte b) = Byte.to_N b.
Proof. destruct b; reflexivity. Qed.

(** [s.encode("ascii").decode("ascii")] is [s]. *)
Lemma decode_encoded (s : string) (b : list byte) :
  py.encode_ascii s = Ok b -> py.decode_ascii b = Ok s.
Proof.
  unfold py.encode_ascii, py.decode_ascii.
  destruct (py.all_ascii s) eqn:E; [|discriminate].
  intros H; inversion H; subst b; clear H.
  rewrite string_of_list_byte_of_string.
  replace (forallb _ (list_byte_of_string s)) with true; [reflexivity|].
  symmetry. induction s as [|c s IH]; [reflexivity|].
  simpl in E. apply andb_true_iff in E. destruct E as [Ec Es].
  change (list_byte_of_string (String c s))
    with (byte_of_ascii c :: list_byte_of_string s).
  simpl forallb. rewrite byte_of_ascii_value. unfold py.is_ascii in Ec.
  rewrite Ec. now apply IH.
Qed.

(** [b.decode("ascii").encode("ascii")] is [b]. *)
Lemma encode_decoded (b : list byte) (s : string) :
  py.decode_ascii b = Ok s -> py.encode_ascii s = Ok b.
Proof.
  unfold py.encode_ascii, py.decode_ascii.
  destruct (forallb _ b) eqn:E; [|discriminate].
  intros H; inversion H; subst s; clear H.
  rewrite list_byte_of_string_of_list_byte.
  replace (py.all_ascii (string_of_list_byte b)) with true; [reflexivity|].
  symmetry. induction b as [|x b IH]; [reflexivity|].
  simpl in E. apply andb_true_iff in E. destruct E as [Ex Eb].
  change (string_of_list_byte (x :: b))
    with (String (ascii_of_byte x) (string_of_list_byte b)).
  simpl py.all_ascii. unfold py.is_ascii. rewrite ascii_of_byte_value, Ex.
  now apply IH.
Qed.

(** Two hex digits say one byte, and [f"{n:02X}"] says it back. *)
Lemma format_byte_hexint (n : N) :
  n < 256 ->
  String.length (py.format_0X 2 n) = 2%nat
  /\ py.hexint (py.format_0X 2 n) = Ok n
  /\ py.format_0X 2 n
     = String (py.hex_digit (n / 16)) (String (py.hex_digit (n mod 16)) "").
Proof.
  intros Hn.
  pose (P := fun n =>
    Nat.eqb (String.length (py.format_0X 2 n)) 2
    && match py.hexint (py.format_0X 2 n) with
       | Ok m => m =? n
       | Raise _ => false
       end
    && String.eqb (py.format_0X 2 n)
         (String (py.hex_digit (n / 16))
            (String (py.hex_digit (n mod 16)) ""))).
  assert (P n = true) as H
    by (apply below_256; [vm_compute; reflexivity | assumption]).
  unfold P in H. apply andb_true_iff in H. destruct H as [H H3].
  apply andb_true_iff in H. destruct H as [H1 H2].
  apply Nat.eqb_eq in H1. apply String.eqb_eq in H3.
  destruct (py.hexint (py.format_0X 2 n)) as [m|]; [|discriminate].
  apply N.eqb_eq in H2. subst m. auto.
Qed.

Lemma hex_val_below_16 (c : ascii) (t : N) : py.hex_val c = Some t -> t < 16.
Proof.
  destruct c as [[] [] [] [] [] [] [] []]; vm_compute; intros H;
    inversion H; reflexivity.
Qed.

(** At most two characters never say more than one byte. *)
Lemma hexint_two_chars (s : string) (n : N) :
  (String.length s <= 2)%nat -> py.hexint s = Ok n -> n < 256.
Proof.
  intros Hlen. unfold py.hexint, py.fromhex.
  destruct s as [|c0 [|c1 [|c2 s]]]; simpl in Hlen; try lia; simpl.
  - intros H; inversion H; reflexivity.
  - destruct (py.is_space c0); simpl.
    + intros H; inversion H; reflexivity.
    + destruct (py.hex_val c0); discriminate.
  - destruct (py.is_space c0); simpl.
    + destruct (py.is_space c1); simpl.
      * intros H; inversion H; reflexivity.
      * destruct (py.hex_val c1); discriminate.
    + destruct (py.hex_val c0) as [t|] eqn:E0; [|discriminate].
      destruct (py.hex_val c1) as [b|] eqn:E1; [|discriminate].
      simpl. intros H; inversion H; subst n.
      apply hex_val_below_16 in E0. apply hex_val_below_16 in E1.
      unfold py.int_from_bytes. simpl. lia.
Qed.

(** X5.  [from_payload] only ever yields one-byte addresses and a one-byte
    opcode. *)
Theorem decoded_fields_one_byte (payload : list byte) (p : Packet) :
  from_payload payload = Ok p ->
  dst p < 256 /\ src p < 256 /\ cmd p < 256.
Proof.
  unfold from_payload. intros H.
  destruct (py.decode_ascii payload) as [data|]; simpl in H; [|discriminate].
  destruct (py.hexint (py.str_slice 0 2 data)) as [d|] eqn:Ed; simpl in H;
    [|discriminate].
  destruct (py.hexint (py.str_slice 2 4 data)) as [s|] eqn:Es; simpl in H;
    [|discriminate].
  destruct (py.hexint (py.str_slice 4 6 data)) as [c|] eqn:Ec; simpl in H;
    [|discriminate].
  match type of H with
  | obind ?m _ = _ => destruct m; simpl in H; [|discriminate]
  end.
  inversion H; subst p; simpl.
  repeat split;
    (eapply hexint_two_chars; [| eassumption]);
    unfold py.str_slice; apply substring_length_le.
Qed.

Lemma decoded_fields_one_byte_witness :
  dst (mkPacket 0x80 0x00 0x11 "1234567ABCD0003") < 256
  /\ src (mkPacket 0x80 0x00 0x11 "1234567ABCD0003") < 256
  /\ cmd (mkPacket 0x80 0x00 0x11 "1234567ABCD0003") < 256.
Proof.
  apply (@decoded_fields_one_byte
           (list_byte_of_string "8000111234567ABCD0003")).
  reflexivity.
Defined.

(** A packet with one-byte addresses and opcode that [get_payload] turns
    into a payload is what [from_payload] reads back from it. *)
Lemma get_payload_from_payload (p : Packet) (payload : list byte) :
  dst p < 256 -> src p < 256 -> cmd p < 256 ->
  get_payload p = Ok payload -> from_payload payload = Ok p.
Proof.
  intros Hd Hs Hc. unfold get_payload.
  destruct (@format_byte_hexint _ Hd) as (Ld & Xd & _).
  destruct (@format_byte_hexint _ Hs) as (Ls & Xs & _).
  destruct (@format_byte_hexint _ Hc) as (Lc & Xc & _).
  set (text := (py.format_0X 2 (dst p) ++ py.format_0X 2 (src p)
                  ++ py.format_0X 2 (cmd p) ++ dat p)%string).
  destruct (py.encode_ascii text) as [b|] eqn:E; simpl; [|discriminate].
  destruct (_print p) as [[]|] eqn:Ep; simpl; [|discriminate].
  intros H; inversion H; subst b; clear H.
  unfold from_payload. rewrite (@decode_encoded _ _ E). simpl obind.
  assert (forall a b n, String.length a = n -> substring 0 n (a ++ b) = a)
    as Left by (intros a b n <-; apply substring_append_left).
  assert (forall a b k n m,
            String.length a = k ->
            substring (k + n) m (a ++ b) = substring n m b)
    as Right by (intros a b k n m <-; apply substring_append_right).
  assert (py.str_slice 0 2 text = py.format_0X 2 (dst p)) as S0
    by (apply Left; exact Ld).
  assert (py.str_slice 2 4 text = py.format_0X 2 (src p)) as S1.
  { change (py.str_slice 2 4 text) with (substring (2 + 0) 2 text).
    unfold text. rewrite (Right _ _ 2 0 2 Ld)%nat. apply Left; exact Ls. }
  assert (py.str_slice 4 6 text = py.format_0X 2 (cmd p)) as S2.
  { change (py.str_slice 4 6 text) with (substring (2 + (2 + 0)) 2 text).
    unfold text. rewrite (Right _ _ 2 (2 + 0) 2 Ld)%nat.
    rewrite (Right _ _ 2 0 2 Ls)%nat. apply Left; exact Lc. }
  assert (py.str_from 6 text = dat p) as S3.
  { unfold py.str_from.
    replace (String.length text - 6)%nat with (String.length (dat p))
      by (unfold text; rewrite !string_length_append, Ld, Ls, Lc; lia).
    change 6%nat with (2 + (2 + (2 + 0)))%nat. unfold text.
    rewrite (Right _ _ 2 (2 + (2 + 0)) _ Ld)%nat.
    rewrite (Right _ _ 2 (2 + 0) _ Ls)%nat.
    rewrite (Right _ _ 2 0 _ Lc)%nat. apply substring_whole. }
  rewrite S0, S1, S2, S3, Xd, Xs, Xc. simpl obind.
  destruct p as [d s c t]. simpl in *. rewrite Ep. reflexivity.
Qed.

(** A permitted payload byte that is a hex digit is an upper-case one,
    and is no white space. *)
Lemma permitted_hex_digit (b : byte) (t : N) :
  frame.payload_value_ok b = true ->
  py.hex_val (ascii_of_byte b) = Some t ->
  t < 16 /\ py.hex_digit t = ascii_of_byte b.
Proof.
  destruct b; try discriminate; intros _; vm_compute; intros H;
    inversion H; split; reflexivity.
Qed.

Lemma permitted_no_space (b : byte) :
  frame.payload_value_ok b = true -> py.is_space (ascii_of_byte b) = false.
Proof. destruct b; try discriminate; reflexivity. Qed.

Lemma permitted_ascii (b : byte) :
  frame.payload_value_ok b = true -> (Byte.to_N b <? 128) = true.
Proof. destruct b; try discriminate; reflexivity. Qed.

(** Two permitted bytes that say a byte in hex are that byte's two
    digits. *)
Lemma hexint_permitted (b0 b1 : byte) (n : N) :
  frame.payload_value_ok b0 = true -> frame.payload_value_ok b1 = true ->
  py.hexint (String (ascii_of_byte b0) (String (ascii_of_byte b1) "")) = Ok n ->
  py.format_0X 2 n = String (ascii_of_byte b0) (String (ascii_of_byte b1) "").
Proof.
  intros H0 H1. unfold py.hexint, py.fromhex. simpl.
  rewrite (@permitted_no_space b0 H0).
  destruct (py.hex_val (ascii_of_byte b0)) as [t|] eqn:E0; [|discriminate].
  destruct (py.hex_val (ascii_of_byte b1)) as [u|] eqn:E1; [|discriminate].
  simpl. intros H; inversion H; subst n; clear H.
  destruct (@permitted_hex_digit b0 _ H0 E0) as [Ht <-].
  destruct (@permitted_hex_digit b1 _ H1 E1) as [Hu <-].
  unfold py.int_from_bytes. simpl fold_left.
  assert (t * 16 + u < 256) as Hn by lia.
  destruct (@format_byte_hexint _ Hn) as (_ & _ & ->).
  replace ((t * 16 + u) / 16) with t
    by (apply N.div_unique with u; lia).
  replace ((t * 16 + u) mod 16) with u
    by (apply N.mod_unique with t; lia).
  reflexivity.
Qed.

(** For a payload as a frame carries it (six bytes or more, all permitted
    values), the packet that [from_payload] reads is turned back into the
    very same payload by [get_payload]. *)
Lemma from_payload_get_payload (payload : list byte) (p : Packet) :
  (6 <= List.length payload)%nat ->
  forallb frame.payload_value_ok payload = true ->
  from_payload payload = Ok p -> get_payload p = Ok payload.
Proof.
  intros Hlen Hvals.
  destruct payload as [|b0 [|b1 [|b2 [|b3 [|b4 [|b5 rest]]]]]];
    simpl in Hlen; try lia.
  simpl in Hvals.
  repeat (apply andb_true_iff in Hvals;
          let H := fresh "V" in destruct Hvals as [H Hvals]).
  unfold from_payload.
  destruct (py.decode_ascii (b0 :: b1 :: b2 :: b3 :: b4 :: b5 :: rest))
    as [data|] eqn:D; simpl obind; [|discriminate].
  pose proof (@encode_decoded _ _ D) as E.
  unfold py.decode_ascii in D.
  match type of D with
  | (if ?c then _ else _) = _ => destruct c; [|discriminate]
  end.
  injection D as D'. rewrite <- D' in *. clear D' data.
  change (string_of_list_byte (b0 :: b1 :: b2 :: b3 :: b4 :: b5 :: rest))
    with (String (ascii_of_byte b0) (String (ascii_of_byte b1)
            (String (ascii_of_byte b2) (String (ascii_of_byte b3)
               (String (ascii_of_byte b4) (String (ascii_of_byte b5)
                  (string_of_list_byte rest))))))) in *.
  set (tail := string_of_list_byte rest) in *.
  change (py.str_slice 0 2 _)
    with (String (ascii_of_byte b0) (String (ascii_of_byte b1) "")).
  change (py.str_slice 2 4 _)
    with (String (ascii_of_byte b2) (String (ascii_of_byte b3) "")).
  replace (py.str_slice 4 6 _)
    with (String (ascii_of_byte b4) (String (ascii_of_byte b5) ""))
    by (unfold py.str_slice; simpl; destruct tail; reflexivity).
  assert (py.str_from 6
            (String (ascii_of_byte b0) (String (ascii_of_byte b1)
               (String (ascii_of_byte b2) (String (ascii_of_byte b3)
                  (String (ascii_of_byte b4) (String (ascii_of_byte b5)
                     tail)))))) = tail) as S3
    by (unfold py.str_from; simpl; rewrite Nat.sub_0_r; apply substring_whole).
  rewrite S3.
  destruct (py.hexint (String (ascii_of_byte b0) _)) as [d|] eqn:Xd;
    simpl obind; [|discriminate].
  destruct (py.hexint (String (ascii_of_byte b2) _)) as [s|] eqn:Xs;
    simpl obind; [|discriminate].
  destruct (py.hexint (String (ascii_of_byte b4) _)) as [c|] eqn:Xc;
    simpl obind; [|discriminate].
  destruct (_print (mkPacket d s c tail)) as [[]|] eqn:Ep; simpl obind;
    [|discriminate].
  intros H; inversion H; subst p; clear H.
  unfold get_payload. simpl dst. simpl src. simpl cmd. simpl dat.
  rewrite (@hexint_permitted b0 b1 _ V V0 Xd), (@hexint_permitted b2 b3 _ V1 V2 Xs),
    (@hexint_permitted b4 b5 _ V3 V4 Xc).
  simpl append. rewrite E. simpl obind. rewrite Ep. reflexivity.
Qed.

Lemma encoded_digits (n : N) (h l : byte) :
  n < 256 ->
  py.encode_ascii (py.format_0X 2 n) = Ok [h; l] ->
  py.hexint (string_of_list_byte [h; l]) = Ok n.
Proof.
  intros Hn E. destruct (@format_byte_hexint _ Hn) as (_ & X & _).
  unfold py.encode_ascii in E.
  destruct (py.all_ascii (py.format_0X 2 n)); [|discriminate].
  injection E as E'. rewrite <- E', string_of_list_byte_of_string. exact X.
Qed.

(** X1.  [_calculate_checksum] and [_calculate_parity] never raise.  For
    every payload each gives exactly two bytes, both upper-case hex
    digits, which read as hex are the sum of the payload bytes modulo 256
    and the exclusive or of the payload bytes. *)
Theorem check_digits (payload : list byte) :
  (exists h l,
     frame._calculate_checksum payload = Ok [h; l]
     /\ is_hex_upper h = true /\ is_hex_upper l = true
     /\ py.hexint (string_of_list_byte [h; l]) = Ok (py.sum payload mod 256))
  /\ (exists h l,
        frame._calculate_parity payload = Ok [h; l]
        /\ is_hex_upper h = true /\ is_hex_upper l = true
        /\ py.hexint (string_of_list_byte [h; l])
           = Ok (fold_left (fun parity b => N.lxor parity (Byte.to_N b))
                   payload 0)).
Proof.
  split.
  - destruct (checksum_digits payload) as (h & l & E & Hh & Hl).
    exists h, l. repeat split; try assumption.
    apply encoded_digits; [apply N.mod_lt; discriminate | exact E].
  - destruct (parity_digits payload) as (h & l & E & Hh & Hl).
    exists h, l. repeat split; try assumption.
    apply encoded_digits; [apply parity_below_256; reflexivity | exact E].
Qed.

(* ------------------------------------------------------------------ *)
(** ** From packet to wire and back *)

Lemma valid_frame_payload (b : list byte) :
  frame._validate b = Ok true ->
  (6 <= List.length (payload_of b))%nat
  /\ forallb frame.payload_value_ok (payload_of b) = true
  /\ frame.get_bytes (frame.mkFrame (payload_of b)) = Ok b.
Proof.
  intros V. destruct (@validate_ok_inv b true V) as [_ (c & q & W)].
  pose proof (@well_framed_regions b c q W) as R.
  destruct (checksum_digits (payload_of b)) as (c1 & c2 & Hc & _).
  destruct (parity_digits (payload_of b)) as (q1 & q2 & Hq & _).
  pose proof (wf_checksum_calc W) as Hc'. pose proof (wf_parity_calc W) as Hq'.
  rewrite Hc in Hc'. rewrite Hq in Hq'.
  inversion Hc'; inversion Hq'; subst c q.
  split; [| split].
  - pose proof (wf_length W) as L. rewrite R in L.
    rewrite !length_app in L. simpl in L. lia.
  - exact (wf_values W).
  - unfold frame.get_bytes. simpl frame._payload. rewrite Hc, Hq.
    simpl obind.
    change (x02 :: payload_of b ++ [c1; c2; q1; q2; x03; xff])
      with ([x02] ++ payload_of b ++ [c1; c2] ++ [q1; q2] ++ [x03; xff]).
    rewrite <- R, V. reflexivity.
Qed.

(** X6.  Every frame that [Frame(bytes).get_packet()] decodes is given
    back byte for byte by [Frame(packet).get_bytes()]: what the scanner
    accepts, [send] would write unchanged. *)
Theorem wire_decode_encode (b : list byte) (p : Packet) :
  decode b = Ok p -> encode p = Ok b.
Proof.
  unfold decode, frame._from_bytes. intros H.
  destruct (frame._validate b) as [r|] eqn:V; simpl in H; [|discriminate].
  destruct (@validate_ok_inv b r V) as [-> _].
  destruct (valid_frame_payload b V) as (Hlen & Hvals & Hget).
  unfold frame.get_packet in H. simpl frame._payload in H.
  fold (payload_of b) in H.
  pose proof (@from_payload_get_payload _ _ Hlen Hvals H) as Hp.
  unfold encode, frame._from_packet. rewrite Hp. simpl obind. exact Hget.
Qed.

Lemma wire_decode_encode_witness :
  let b := x02 :: list_byte_of_string "8000111234567ABCD0003633F" ++ [x03; xff] in
  let p := mkPacket 0x80 0x00 0x11 "1234567ABCD0003" in
  decode b = Ok p /\ encode p = Ok b.
Proof.
  split; [reflexivity | apply wire_decode_encode; reflexivity].
Defined.

(** X7.  A packet with one-byte addresses and opcode that
    [Frame(packet).get_bytes()] encodes is what
    [Frame(bytes).get_packet()] decodes from the result. *)
Theorem wire_encode_decode (p : Packet) (b : list byte) :
  dst p < 256 -> src p < 256 -> cmd p < 256 ->
  encode p = Ok b -> decode b = Ok p.
Proof.
  intros Hd Hs Hc. unfold encode, frame._from_packet.
  destruct (get_payload p) as [payload|] eqn:E; simpl; [|discriminate].
  intros Hb. unfold decode.
  rewrite (@get_bytes_from_bytes _ _ Hb). simpl obind.
  unfold frame.get_packet. simpl frame._payload.
  now apply get_payload_from_payload.
Qed.

Lemma wire_encode_decode_witness :
  let p := mkPacket 0x00 0x80 0x11 "12345670103" in
  let b := x02 :: list_byte_of_string "008011123456701035A3A" ++ [x03; xff] in
  encode p = Ok b /\ decode b = Ok p.
Proof.
  split; [reflexivity|].
  apply (@wire_encode_decode (mkPacket 0x00 0x80 0x11 "12345670103"));
    reflexivity.
Defined.

(* ------------------------------------------------------------------ *)
(** ** What the actor does and does not do *)

(** Splits [respond] into the branches of its [if]/[elif] chain, keeping
    the test that led into each. *)
Ltac respond_branches message :=
  unfold manager.respond;
  repeat match goal with
         | |- context [if ?c then _ else _] =>
             lazymatch c with
             | context [if _ then _ else _] => fail
             | _ => destruct c eqn:?
             end
         end;
  try (destruct (py.hexint (py.str_slice 2 4 (dat message))) eqn:?);
  run; proj.

Lemma addressed_elsewhere (d : N) :
  negb ((d =? ADDR_BROADCAST) || (d =? ADDR_CP)) = false ->
  d = ADDR_CP \/ d = ADDR_BROADCAST.
Proof.
  intros H. apply negb_false_iff, orb_true_iff in H.
  destruct H as [H|H]; apply N.eqb_eq in H; auto.
Qed.

(** X8.  [respond] never touches the clock, the serial port or the
    monitor flag.  It enqueues at most two packets, each from the
    ChargePoint's address to the sender of the message.  It changes the
    phase only when it handles a [0x11] packet, and then to 1.  A message
    addressed to neither the ChargePoint nor the broadcast address changes
    nothing but the console. *)
Theorem respond_effects
  (cards : list string) (message : Packet) (w w' : World)
  (r : outcome unit) :
  manager.respond cards message w = (r, w') ->
  clock w' = clock w /\ HANDLE w' = HANDLE w /\ MONITOR w' = MONITOR w
  /\ (exists replies,
        OUTBOX w' = replies ++ OUTBOX w
        /\ (List.length replies <= 2)%nat
        /\ Forall (fun p => src p = ADDR_CP /\ dst p = src message) replies)
  /\ (_charger_state (CB_MANAGER w') = _charger_state (CB_MANAGER w)
      \/ cmd message = 0x11 /\ _charger_state (CB_MANAGER w') = 1)
  /\ (dst message <> ADDR_CP -> dst message <> ADDR_BROADCAST ->
      r = Ok tt /\ OUTBOX w' = OUTBOX w /\ CB_MANAGER w' = CB_MANAGER w).
Proof.
  destruct w as [now h mon q [st lm ts fl] out].
  respond_branches message;
    intros H; inversion H; subst r w'; clear H; proj;
    (split; [reflexivity|]); (split; [reflexivity|]);
    (split; [reflexivity|]);
    (split;
     [ first
         [ exists []; split; [reflexivity|]; split; [simpl; lia|];
           constructor
         | eexists [_]; split; [reflexivity|]; split; [simpl; lia|];
           repeat constructor
         | eexists [_; _]; split; [reflexivity|]; split; [simpl; lia|];
           repeat constructor ]
     | ]);
    (split;
     [ first
         [ left; reflexivity
         | right; split; [now apply N.eqb_eq | reflexivity] ]
     | ]);
    intros Hcp Hbc;
    first
      [ repeat split; reflexivity
      | exfalso;
        match goal with
        | E : negb _ = false |- _ =>
            destruct (addressed_elsewhere _ E); contradiction
        end ].
Qed.

Lemma respond_effects_witness :
  let message := mkPacket 0x80 0x01 0x6A "A700" in
  let w' := snd (manager.respond config.allowed_cards message live) in
  clock w' = clock live /\ HANDLE w' = HANDLE live
  /\ MONITOR w' = MONITOR live
  /\ (exists replies,
        OUTBOX w' = replies ++ OUTBOX live
        /\ (List.length replies <= 2)%nat
        /\ Forall (fun p => src p = ADDR_CP /\ dst p = src message) replies)
  /\ (_charger_state (CB_MANAGER w') = _charger_state (CB_MANAGER live)
      \/ cmd message = 0x11 /\ _charger_state (CB_MANAGER w') = 1)
  /\ (dst message <> ADDR_CP -> dst message <> ADDR_BROADCAST ->
      Ok tt = Ok tt /\ OUTBOX w' = OUTBOX live
      /\ CB_MANAGER w' = CB_MANAGER live).
Proof.
  apply (@respond_effects config.allowed_cards
           (mkPacket 0x80 0x01 0x6A "A700") live
           (snd (manager.respond config.allowed_cards
                   (mkPacket 0x80 0x01 0x6A "A700") live))
           (Ok tt)).
  reflexivity.
Defined.

(** X9.  [respond] raises for no packet that [_print] lets through, hence
    for no packet the scanner hands it: the one conversion it makes, of
    the card number length of a [0x22] packet, has been made by [_print]
    before. *)
Theorem respond_accepts_decoded
  (cards : list string) (message : Packet) (w : World) :
  _print message = Ok tt ->
  exists w', manager.respond cards message w = (Ok tt, w').
Proof.
  intros Hp. destruct w as [now h mon q [st lm ts fl] out].
  destruct (cmd message =? 0x22) eqn:E22.
  - apply N.eqb_eq in E22.
    destruct (auth_length_field message E22 Hp) as [n Hn].
    unfold manager.respond. rewrite E22, Hn.
    destruct (negb _); run; proj; eexists; reflexivity.
  - respond_branches message; try (eexists; reflexivity); congruence.
Qed.

Lemma respond_accepts_decoded_witness :
  exists w',
    manager.respond config.allowed_cards
      (mkPacket 0x80 0x01 0x22 "000E04BA2A2ADA179000000000") live
    = (Ok tt, w').
Proof.
  apply (@respond_accepts_decoded config.allowed_cards
           (mkPacket 0x80 0x01 0x22 "000E04BA2A2ADA179000000000") live).
  reflexivity.
Defined.

(** X10.  [timers] never raises and never touches the clock or the serial
    port.  In one call it enqueues at most one packet: the one it resends
    or the next configuration request, never both.  While a response is
    awaited it does not move the phase at all, however long ago the last
    send was. *)
Theorem timers_effects (w : World) :
  exists w',
    manager.timers w = (Ok tt, w')
    /\ clock w' = clock w /\ HANDLE w' = HANDLE w /\ MONITOR w' = MONITOR w
    /\ (OUTBOX w' = OUTBOX w
        \/ exists p,
             OUTBOX w' = p :: OUTBOX w
             /\ (p = _last_message (CB_MANAGER w)
                 \/ p = connection_state_request
                 \/ p = set_configuration_request))
    /\ (_check_message_response (CB_MANAGER w) = true ->
        _charger_state (CB_MANAGER w') = _charger_state (CB_MANAGER w)).
Proof.
  destruct w as [now h mon q [st lm ts fl] out]. run. unfold seconds. proj.
  assert ((now + 5 * 1000000 >? now)%Z = true) as E5'
    by (apply gtb_later; lia).
  assert (forall w' : World,
            clock w' = now -> HANDLE w' = h -> MONITOR w' = mon ->
            (OUTBOX w' = q
             \/ exists p,
                  OUTBOX w' = p :: q
                  /\ (p = lm \/ p = connection_state_request
                      \/ p = set_configuration_request)) ->
            (fl = true -> _charger_state (CB_MANAGER w') = st) ->
            exists w'',
              (Ok tt, w') = (Ok tt, w'')
              /\ clock w'' = now /\ HANDLE w'' = h /\ MONITOR w'' = mon
              /\ (OUTBOX w'' = q
                  \/ exists p,
                       OUTBOX w'' = p :: q
                       /\ (p = lm \/ p = connection_state_request
                           \/ p = set_configuration_request))
              /\ (fl = true -> _charger_state (CB_MANAGER w'') = st)) as Done
    by (intros w' ? ? ? ? ?; exists w'; auto 10).
  destruct fl; proj.
  - destruct (ts + 2 * 1000000 >? now)%Z eqn:E2; proj.
    + destruct (0 <? st); proj; [|apply Done; auto].
      destruct (ts + 5 * 1000000 >? now)%Z eqn:E5; proj; [apply Done; auto|].
      apply gtb_later in E2. apply gtb_not_later in E5. lia.
    + destruct (0 <? st); proj; rewrite ?E5'; proj;
        apply Done; auto; right; exists lm; auto.
  - destruct (0 <? st); proj; [|apply Done; auto; discriminate].
    destruct (ts + 5 * 1000000 >? now)%Z; proj;
      [apply Done; auto; discriminate|].
    destruct (st =? 1); [| destruct (st =? 2); [| destruct (st =? 3)]];
      proj; apply Done; auto; try discriminate.
    + right. eexists. split; [reflexivity | auto].
    + right. eexists. split; [reflexivity | auto].
Qed.

(** X11.  The phase counter stays within 0 to 3: the constructor sets
    it to 0, and neither [respond] nor [timers] takes it out of that
    range. *)
Theorem phase_in_range (w : World) :
  _charger_state (CB_MANAGER (snd (manager.__init__ w))) = 0
  /\ (forall cards message,
        _charger_state (CB_MANAGER w) <= 3 ->
        _charger_state
          (CB_MANAGER (snd (manager.respond cards message w))) <= 3)
  /\ (_charger_state (CB_MANAGER w) <= 3 ->
      _charger_state (CB_MANAGER (snd (manager.timers w))) <= 3).
Proof.
  destruct w as [now h mon q [st lm ts fl] out].
  split; [reflexivity|]. split.
  - intros cards message Hst. proj.
    respond_branches message; cbn [snd]; proj; solve [assumption | lia].
  - proj. intros Hst. run. unfold seconds. proj.
    destruct fl; proj;
      [destruct (ts + 2 * 1000000 >? now)%Z; proj|];
      (destruct (0 <? st); proj; [|cbn [snd]; proj; assumption]);
      match goal with
      | |- context [(?a >? ?b)%Z] => destruct (a >? b)%Z; proj
      end;
      try (cbn [snd]; proj; assumption);
      (destruct (st =? 1); [| destruct (st =? 2); [| destruct (st =? 3)]]);
      proj; cbn [snd]; proj; solve [assumption | lia].
Qed.

(* ------------------------------------------------------------------ *)
(** ** The drain loop *)

(** The loop after it has written the packets [sent], oldest first. *)
Lemma drain_run (sent : list Packet) :
  forall (frames : list (list byte)) (q : list Packet) (w : World)
         (written : list (list byte)) (fuel : nat),
    Forall2 (fun p data => encode p = Ok data) sent frames ->
    OUTBOX w = q ++ rev sent ->
    HANDLE w = Some written ->
    exists w1,
      main.drain (List.length sent + fuel) w = main.drain fuel w1
      /\ OUTBOX w1 = q
      /\ HANDLE w1 = Some (written ++ frames)
      /\ clock w1 = (clock w + 100000 * Z.of_nat (List.length sent))%Z
      /\ CB_MANAGER w1 = CB_MANAGER w /\ MONITOR w1 = MONITOR w.
Proof.
  induction sent as [|p sent IH]; intros frames q w written fuel F Hq Hh.
  - inversion F; subst frames. exists w. simpl in Hq.
    rewrite !app_nil_r in *. repeat split; auto. simpl. lia.
  - inversion F as [|p' d sent' frames' Hp F']; subst.
    simpl rev in Hq. rewrite app_assoc in Hq.
    cbn [List.length Nat.add main.drain]. rewrite Hq, pop_snoc.
    unfold bind. rewrite send_encode, Hp.
    destruct w as [now h mon ob cp out]. proj. subst h.
    unfold main.HANDLE_write, before_write. proj.
    destruct (IH frames' q
                (mkWorld (now + 100000) (Some (written ++ [d])) mon
                   (q ++ rev sent) cp (out ++ [Sending (now + 100000)%Z]))
                (written ++ [d]) fuel F' eq_refl eq_refl)
      as (w1 & Hrun & Hq1 & Hh1 & Hc1 & Hcp1 & Hmon1).
    exists w1. proj. repeat split; auto.
    + rewrite Hh1, <- app_assoc. reflexivity.
    + rewrite Hc1. cbn [List.length]. lia.
Qed.

(** X12.  When every queued packet encodes, the drain loop writes them
    all to the serial port, the one enqueued first first, waits 100 ms
    before each, and leaves the outbox empty; the actor is not touched.
    When a packet does not encode, the loop raises at that packet: the
    older packets have been written, the failing one is gone from the
    outbox without having been written, and the younger ones stay
    queued. *)
Theorem drain_writes_all
  (w : World) (written : list (list byte)) (sent : list Packet)
  (frames : list (list byte)) :
  HANDLE w = Some written ->
  Forall2 (fun p data => encode p = Ok data) sent frames ->
  (OUTBOX w = rev sent ->
   exists w',
     main.drain_OUTBOX w = (Ok tt, w')
     /\ OUTBOX w' = []
     /\ HANDLE w' = Some (written ++ frames)
     /\ clock w' = (clock w + 100000 * Z.of_nat (List.length sent))%Z
     /\ CB_MANAGER w' = CB_MANAGER w)
  /\ (forall younger failing e,
        OUTBOX w = younger ++ failing :: rev sent ->
        encode failing = Raise e ->
        exists w',
          main.drain_OUTBOX w = (Raise e, w')
          /\ OUTBOX w' = younger
          /\ HANDLE w' = Some (written ++ frames)
          /\ CB_MANAGER w' = CB_MANAGER w).
Proof.
  intros Hh F. split.
  - intros Hq.
    destruct (@drain_run sent frames [] w written 0 F Hq Hh)
      as (w1 & Hrun & Hq1 & Hh1 & Hc1 & Hcp1 & _).
    exists w1. unfold main.drain_OUTBOX.
    rewrite Hq, length_rev. rewrite Nat.add_0_r in Hrun. rewrite Hrun.
    repeat split; auto.
  - intros younger failing e Hq He.
    assert (OUTBOX w = (younger ++ [failing]) ++ rev sent) as Hq'
      by (rewrite Hq, <- app_assoc; reflexivity).
    destruct (@drain_run sent frames (younger ++ [failing]) w written
                (S (List.length younger)) F Hq' Hh)
      as (w1 & Hrun & Hq1 & Hh1 & _ & Hcp1 & _).
    unfold main.drain_OUTBOX.
    replace (List.length (OUTBOX w))
      with (List.length sent + S (List.length younger))%nat
      by (rewrite Hq', !length_app, length_rev; simpl; lia).
    rewrite Hrun. cbn [main.drain]. rewrite Hq1, pop_snoc.
    unfold bind. rewrite send_encode, He.
    eexists. split; [reflexivity|].
    unfold before_write. proj. repeat split; auto.
Qed.

Lemma drain_writes_all_witness :
  let ack := mkPacket 0x01 ADDR_CP 0x6A "AA00" in
  let limit := mkPacket 0x01 ADDR_CP 0x6B "01003C003C003C003C" in
  let w := set_OUTBOX [limit; ack] live in
  let frames :=
    [x02 :: list_byte_of_string "01806AAA00227E" ++ [x03; xff];
     x02 :: list_byte_of_string "01806B01003C003C003C003CFA7C" ++ [x03; xff]] in
  (OUTBOX w = rev [ack; limit] ->
   exists w',
     main.drain_OUTBOX w = (Ok tt, w')
     /\ OUTBOX w' = []
     /\ HANDLE w' = Some ([] ++ frames)
     /\ clock w' = (clock w + 100000 * Z.of_nat (List.length [ack; limit]))%Z
     /\ CB_MANAGER w' = CB_MANAGER w)
  /\ (forall younger failing e,
        OUTBOX w = younger ++ failing :: rev [ack; limit] ->
        encode failing = Raise e ->
        exists w',
          main.drain_OUTBOX w = (Raise e, w')
          /\ OUTBOX w' = younger
          /\ HANDLE w' = Some ([] ++ frames)
          /\ CB_MANAGER w' = CB_MANAGER w).
Proof.
  apply (@drain_writes_all
           (set_OUTBOX [mkPacket 0x01 ADDR_CP 0x6B "01003C003C003C003C";
                        mkPacket 0x01 ADDR_CP 0x6A "AA00"] live)
           []
           [mkPacket 0x01 ADDR_CP 0x6A "AA00";
            mkPacket 0x01 ADDR_CP 0x6B "01003C003C003C003C"]).
  - reflexivity.
  - repeat constructor.
Defined.

(* ------------------------------------------------------------------ *)
(** ** The capture file *)

Lemma fromhex_byte (b : byte) (rest : string) :
  py.fromhex_go None (py.format_0X 2 (Byte.to_N b) ++ rest)
  = option_map (cons (Byte.to_N b)) (py.fromhex_go None rest).
Proof. destruct b; reflexivity. Qed.

Lemma string_append_assoc (a b c : string) :
  ((a ++ b) ++ c = a ++ (b ++ c))%string.
Proof. induction a as [|x a IH]; simpl; [reflexivity | now rewrite IH]. Qed.

Lemma fromhex_hex_upper_spaced (data : list byte) :
  py.fromhex_go None (capture_record data) = Some (map Byte.to_N data).
Proof.
  unfold capture_record.
  induction data as [|b data IH]; [reflexivity|].
  destruct data as [|b' data].
  - simpl hex_upper_spaced. rewrite fromhex_byte. reflexivity.
  - change (hex_upper_spaced (b :: b' :: data))
      with (py.format_0X 2 (Byte.to_N b)
              ++ String " " (hex_upper_spaced (b' :: data)))%string.
    rewrite string_append_assoc, fromhex_byte.
    change (py.fromhex_go None
              (String " " (hex_upper_spaced (b' :: data)) ++ String "010"%char ""))
      with (py.fromhex_go None
              (hex_upper_spaced (b' :: data) ++ String "010"%char "")).
    rewrite IH. reflexivity.
Qed.

(** X13. A record of the capture file reads back as the
    bytes it was written from: what [send] and [read_from_serial] write
    for a chunk of traffic ([data.hex(' ').upper()] and a newline) is
    accepted by the [bytes.fromhex] of [read_from_file], which returns
    exactly the bytes of the chunk, for every chunk, the empty one
    included. *)
Theorem capture_replay (data : list byte) :
  py.fromhex (capture_record data) = Ok (map Byte.to_N data).
Proof.
  unfold py.fromhex. rewrite fromhex_hex_upper_spaced. reflexivity.
Qed.

(* ------------------------------------------------------------------ *)
(** ** Hexadecimal fields of any width *)

Lemma hex_digit_val (d : N) :
  d < 16 ->
  py.hex_val (py.hex_digit d) = Some d
  /\ is_hex_upper (byte_of_ascii (py.hex_digit d)) = true.
Proof.
  intros Hd. rewrite <- (N2Nat.id d).
  assert (N.to_nat d < 16)%nat as Hk by lia.
  destruct (N.to_nat d) as [|k]; [split; reflexivity|].
  do 15 (destruct k as [|k]; [split; reflexivity|]). lia.
Qed.

Lemma hex_val_no_space (c : ascii) (d : N) :
  py.hex_val c = Some d -> py.is_space c = false.
Proof.
  destruct c as [[] [] [] [] [] [] [] []]; vm_compute; congruence.
Qed.

Lemma hex_value_app (s1 s2 : string) (a : N) :
  hex_value (s1 ++ s2) a
  = match hex_value s1 a with
    | Some a' => hex_value s2 a'
    | None => None
    end.
Proof.
  revert a; induction s1 as [|c s1 IH]; intros a; simpl; [reflexivity|].
  destruct (py.hex_val c); [apply IH | reflexivity].
Qed.

Lemma all_hex_upper_app (s1 s2 : string) :
  all_hex_upper (s1 ++ s2) = all_hex_upper s1 && all_hex_upper s2.
Proof.
  induction s1 as [|c s1 IH]; [reflexivity|].
  change (all_hex_upper (String c s1 ++ s2))
    with (is_hex_upper (byte_of_ascii c) && all_hex_upper (s1 ++ s2)).
  change (all_hex_upper (String c s1))
    with (is_hex_upper (byte_of_ascii c) && all_hex_upper s1).
  rewrite IH. apply andb_assoc.
Qed.

Lemma size_nat_bound (n : N) : n < 2 ^ N.of_nat (N.size_nat n).
Proof.
  destruct n as [|p]; [reflexivity|].
  simpl N.size_nat.
  induction p as [p IH|p IH|]; simpl Pos.size_nat;
    try rewrite Nat2N.inj_succ, N.pow_succ_r'; lia.
Qed.

Lemma pow16_succ (k : nat) : 16 ^ N.of_nat (S k) = 16 * 16 ^ N.of_nat k.
Proof. rewrite Nat2N.inj_succ. apply N.pow_succ_r'. Qed.

Lemma pow16_pos (k : nat) : 0 < 16 ^ N.of_nat k.
Proof. apply N.neq_0_lt_0, N.pow_nonzero. discriminate. Qed.

(** The digits that [hex_digits] puts in front of [acc]. *)
Lemma hex_digits_spec (f : nat) :
  forall (n : N) (acc : string),
    n < 2 ^ N.of_nat (S f) ->
    exists ds,
      py.hex_digits (S f) n acc = (ds ++ acc)%string
      /\ all_hex_upper ds = true
      /\ (forall a,
            hex_value ds a = Some (a * 16 ^ N.of_nat (String.length ds) + n))
      /\ (1 <= String.length ds)%nat
      /\ (forall k, (1 <= k)%nat ->
            n < 16 ^ N.of_nat k <-> (String.length ds <= k)%nat).
Proof.
  induction f as [|f IH]; intros n acc Hn.
  - assert (n < 16) as Hd by (change (2 ^ N.of_nat 1) with 2 in Hn; lia).
    exists (String (py.hex_digit n) "").
    destruct (@hex_digit_val _ Hd) as [Hv Hu].
    assert (n mod 16 = n) as Hm by (apply N.mod_small; exact Hd).
    assert (n / 16 = 0) as Hq by (apply N.div_small; exact Hd).
    split; [simpl; rewrite Hm, Hq; reflexivity|].
    split; [unfold all_hex_upper; simpl; rewrite Hu; reflexivity|].
    split; [intros a; simpl; rewrite Hv; f_equal; lia|].
    split; [simpl; lia|].
    intros k Hk. simpl String.length. split; [lia|]. intros _.
    destruct k as [|k]; [lia|]. rewrite pow16_succ.
    pose proof (pow16_pos k). lia.
  - assert (n mod 16 < 16) as Hd by (apply N.mod_lt; discriminate).
    destruct (@hex_digit_val _ Hd) as [Hv Hu].
    pose proof (N.div_mod n 16 ltac:(discriminate)) as Hdm.
    change (py.hex_digits (S (S f)) n acc)
      with (if n / 16 =? 0 then String (py.hex_digit (n mod 16)) acc
            else py.hex_digits (S f) (n / 16)
                   (String (py.hex_digit (n mod 16)) acc)).
    destruct (N.eqb_spec (n / 16) 0) as [Hq|Hq].
    + exists (String (py.hex_digit (n mod 16)) "").
      split; [reflexivity|].
      split; [unfold all_hex_upper; simpl; rewrite Hu; reflexivity|].
      split; [intros a; simpl; rewrite Hv; f_equal; lia|].
      split; [simpl; lia|].
      intros k Hk. simpl String.length. split; [lia|]. intros _.
      destruct k as [|k]; [lia|]. rewrite pow16_succ.
      pose proof (pow16_pos k). lia.
    + assert (n / 16 < 2 ^ N.of_nat (S f)) as Hn'.
      { apply N.Div0.div_lt_upper_bound.
        rewrite (Nat2N.inj_succ (S f)), N.pow_succ_r' in Hn. lia. }
      destruct (IH (n / 16) (String (py.hex_digit (n mod 16)) acc) Hn')
        as (ds & E & Hu' & Hval & Hlen & Hk).
      exists (ds ++ String (py.hex_digit (n mod 16)) "")%string.
      assert (String.length (ds ++ String (py.hex_digit (n mod 16)) "")
              = S (String.length ds)) as L
        by (rewrite string_length_append; simpl; lia).
      split.
      { rewrite E, string_append_assoc. reflexivity. }
      split.
      { rewrite all_hex_upper_app, Hu'. unfold all_hex_upper. simpl.
        rewrite Hu. reflexivity. }
      split.
      { intros a. rewrite hex_value_app, Hval. simpl. rewrite Hv, L.
        f_equal. rewrite pow16_succ.
        transitivity (a * (16 * 16 ^ N.of_nat (String.length ds))
                      + (16 * (n / 16) + n mod 16));
          [ring | rewrite <- Hdm; reflexivity]. }
      split; [lia|].
      intros k Hk1. rewrite L.
      destruct k as [|k]; [lia|]. rewrite pow16_succ.
      destruct k as [|k].
      * change (16 ^ N.of_nat 0) with 1. split; [|lia].
        intros H. exfalso. apply Hq, N.div_small. lia.
      * pose proof (Hk (S k) ltac:(lia)) as [Hk1' Hk2']. split; intros H.
        -- apply N.Div0.div_lt_upper_bound in H. apply Hk1' in H. lia.
        -- assert (n / 16 < 16 ^ N.of_nat (S k)) as Hlt
             by (apply Hk2'; lia).
           rewrite Hdm. lia.
Qed.

Lemma string_append_nil (s : string) : (s ++ "")%string = s.
Proof. induction s as [|c s IH]; simpl; [reflexivity | now rewrite IH]. Qed.

(** [f"{n:X}"]: at least one digit, no more than the value needs. *)
Lemma hex_spec (n : N) :
  all_hex_upper (py.hex n) = true
  /\ (forall a,
        hex_value (py.hex n) a
        = Some (a * 16 ^ N.of_nat (String.length (py.hex n)) + n))
  /\ (1 <= String.length (py.hex n))%nat
  /\ (forall k, (1 <= k)%nat ->
        n < 16 ^ N.of_nat k <-> (String.length (py.hex n) <= k)%nat).
Proof.
  unfold py.hex.
  assert (n < 2 ^ N.of_nat (S (N.size_nat n))) as Hn.
  { pose proof (size_nat_bound n) as B.
    rewrite Nat2N.inj_succ, N.pow_succ_r'. lia. }
  destruct (@hex_digits_spec (N.size_nat n) n "" Hn) as (ds & E & H).
  rewrite string_append_nil in E. rewrite E. exact H.
Qed.

Lemma zeros_spec (j : nat) :
  String.length (py.repeat_char "0" j) = j
  /\ all_hex_upper (py.repeat_char "0" j) = true
  /\ forall a, hex_value (py.repeat_char "0" j) a = Some (a * 16 ^ N.of_nat j).
Proof.
  induction j as [|j (L & U & V)].
  - repeat split. intros a. simpl. f_equal. lia.
  - split; [simpl; now rewrite L|].
    split; [exact U|].
    intros a.
    change (hex_value (py.repeat_char "0" (S j)) a)
      with (hex_value (py.repeat_char "0" j) (a * 16 + 0)).
    rewrite V, pow16_succ. f_equal. ring.
Qed.

(** [f"{n:0wX}"] for a value that fits in [w] digits. *)
Lemma format_0X_fits (w : nat) (n : N) :
  (1 <= w)%nat -> n < 16 ^ N.of_nat w ->
  String.length (py.format_0X w n) = w
  /\ all_hex_upper (py.format_0X w n) = true
  /\ hex_value (py.format_0X w n) 0 = Some n.
Proof.
  intros Hw Hn. unfold py.format_0X.
  destruct (hex_spec n) as (U & V & L1 & LK).
  pose proof (proj1 (LK w Hw) Hn) as L.
  destruct (zeros_spec (w - String.length (py.hex n))) as (ZL & ZU & ZV).
  split; [rewrite string_length_append, ZL; lia|].
  split; [rewrite all_hex_upper_app, ZU, U; reflexivity|].
  rewrite hex_value_app, ZV, V. f_equal; lia.
Qed.

(** [f"{n:0wX}"] for a value that does not fit: more than [w] digits. *)
Lemma format_0X_wide (w : nat) (n : N) :
  (1 <= w)%nat -> 16 ^ N.of_nat w <= n ->
  (w < String.length (py.format_0X w n))%nat.
Proof.
  intros Hw Hn. unfold py.format_0X.
  destruct (hex_spec n) as (_ & _ & _ & LK).
  rewrite string_length_append.
  destruct (Nat.le_gt_cases (String.length (py.hex n)) w) as [L|L]; [|lia].
  apply (LK w Hw) in L. lia.
Qed.

(** [bytes.fromhex] on an even number of hex digits, followed by
    [int.from_bytes]. *)
Lemma fromhex_even (k : nat) :
  forall (s : string) (a v : N),
    String.length s = (2 * k)%nat ->
    hex_value s a = Some v ->
    exists l,
      py.fromhex_go None s = Some l
      /\ fold_left (fun acc x => acc * 256 + x) l a = v.
Proof.
  induction k as [|k IH]; intros s a v L V.
  - destruct s; [|discriminate]. exists []. simpl in *. split; congruence.
  - destruct s as [|h [|l rest]]; try (simpl in L; lia).
    simpl in L. assert (String.length rest = (2 * k)%nat) as L' by lia.
    simpl in V.
    destruct (py.hex_val h) as [x|] eqn:Hh; [|discriminate].
    destruct (py.hex_val l) as [y|] eqn:Hl; [|discriminate].
    destruct (IH rest _ _ L' V) as (bs & E & F).
    exists ((x * 16 + y) :: bs). split.
    + simpl. rewrite (@hex_val_no_space _ _ Hh), Hh, Hl, E. reflexivity.
    + simpl. rewrite <- F. f_equal. lia.
Qed.

Lemma hexint_even (k : nat) (s : string) (v : N) :
  String.length s = (2 * k)%nat ->
  hex_value s 0 = Some v ->
  py.hexint s = Ok v.
Proof.
  intros L V. destruct (@fromhex_even k s 0 v L V) as (l & E & F).
  unfold py.hexint, py.fromhex. rewrite E. simpl.
  unfold py.int_from_bytes. now rewrite F.
Qed.

Lemma hex_upper_permitted (b : byte) :
  is_hex_upper b = true -> frame.payload_value_ok b = true.
Proof. destruct b; vm_compute; congruence. Qed.

Lemma all_hex_upper_permitted (s : string) :
  all_hex_upper s = true ->
  forallb frame.payload_value_ok (list_byte_of_string s) = true.
Proof.
  unfold all_hex_upper. intros H. apply forallb_forall. intros b Hb.
  apply hex_upper_permitted.
  exact (proj1 (forallb_forall _ _) H b Hb).
Qed.

(* ------------------------------------------------------------------ *)
(** ** Replies that carry the time *)

Lemma list_byte_of_string_app (a b : string) :
  list_byte_of_string (a ++ b)
  = list_byte_of_string a ++ list_byte_of_string b.
Proof.
  induction a as [|c a IH]; [reflexivity|].
  change (list_byte_of_string (String c a ++ b))
    with (byte_of_ascii c :: list_byte_of_string (a ++ b)).
  rewrite IH. reflexivity.
Qed.

Lemma list_byte_of_string_length (s : string) :
  List.length (list_byte_of_string s) = String.length s.
Proof.
  induction s as [|c s IH]; [reflexivity|].
  change (list_byte_of_string (String c s))
    with (byte_of_ascii c :: list_byte_of_string s).
  simpl. now rewrite IH.
Qed.

Lemma permitted_all_ascii (s : string) :
  forallb frame.payload_value_ok (list_byte_of_string s) = true ->
  py.all_ascii s = true.
Proof.
  induction s as [|c s IH]; [reflexivity|].
  change (list_byte_of_string (String c s))
    with (byte_of_ascii c :: list_byte_of_string s).
  simpl. intros H. apply andb_true_iff in H. destruct H as [Hc Hs].
  rewrite (IH Hs), andb_true_r.
  unfold py.is_ascii. rewrite <- byte_of_ascii_value.
  now apply permitted_ascii.
Qed.

Lemma get_bytes_permitted (payload : list byte) :
  (6 <= List.length payload)%nat ->
  forallb frame.payload_value_ok payload = true ->
  exists b, frame.get_bytes (frame.mkFrame payload) = Ok b.
Proof.
  intros Hsix Hvals.
  destruct (checksum_digits payload) as (c1 & c2 & Hc & _).
  destruct (parity_digits payload) as (p1 & p2 & Hp & _).
  destruct (framed_regions payload c1 c2 p1 p2)
    as (Hlen & Hstart & Hend & Hpay & Hcs & Hpar).
  exists (framed payload [c1; c2] [p1; p2]).
  unfold frame.get_bytes. simpl frame._payload. rewrite Hc, Hp. simpl obind.
  change (x02 :: payload ++ [c1; c2; p1; p2; x03; xff])
    with (framed payload [c1; c2] [p1; p2]).
  unfold frame._validate.
  rewrite Hlen, Hstart, Hend, Hpay, Hcs, Hpar, Hc, Hp. simpl obind.
  destruct (permitted_no_markers payload Hvals) as [-> ->].
  rewrite (flat_map_values_nil payload Hvals).
  rewrite !(proj2 (byte_eqb_eq _ _) eq_refl).
  replace (List.length payload + 7 <? 13)%nat with false
    by (symmetry; apply Nat.ltb_ge; lia).
  reflexivity.
Qed.

Lemma byte_field_permitted (n : N) :
  n < 256 ->
  String.length (py.format_0X 2 n) = 2%nat
  /\ forallb frame.payload_value_ok (list_byte_of_string (py.format_0X 2 n))
     = true.
Proof.
  intros Hn. destruct (@format_0X_fits 2 n ltac:(lia) Hn) as (L & U & _).
  split; [exact L | now apply all_hex_upper_permitted].
Qed.

(** A packet goes out when its fields fit one byte each, it passes its
    own [_print] and its [dat] holds permitted characters only. *)
Lemma encode_permitted (p : Packet) :
  dst p < 256 -> src p < 256 -> cmd p < 256 ->
  _print p = Ok tt ->
  forallb frame.payload_value_ok (list_byte_of_string (dat p)) = true ->
  exists b, encode p = Ok b.
Proof.
  intros Hd Hs Hc Hprint Hdat.
  destruct (byte_field_permitted Hd) as (Ld & Pd).
  destruct (byte_field_permitted Hs) as (Ls & Ps).
  destruct (byte_field_permitted Hc) as (Lc & Pc).
  set (text := (py.format_0X 2 (dst p) ++ py.format_0X 2 (src p)
                  ++ py.format_0X 2 (cmd p) ++ dat p)%string).
  assert (forallb frame.payload_value_ok (list_byte_of_string text) = true)
    as Hall.
  { unfold text. rewrite !list_byte_of_string_app, !forallb_app.
    rewrite Pd, Ps, Pc, Hdat. reflexivity. }
  assert (6 <= List.length (list_byte_of_string text))%nat as Hsix.
  { rewrite list_byte_of_string_length. unfold text.
    rewrite !string_length_append. lia. }
  unfold encode, frame._from_packet, get_payload. fold text.
  unfold py.encode_ascii. rewrite (permitted_all_ascii _ Hall).
  simpl obind. rewrite Hprint. simpl obind.
  now apply get_bytes_permitted.
Qed.

Lemma encode_print (p : Packet) (b : list byte) :
  encode p = Ok b -> _print p = Ok tt.
Proof.
  unfold encode, frame._from_packet, get_payload.
  destruct (py.encode_ascii _); [|discriminate]. simpl obind.
  destruct (_print p) as [[]|]; [reflexivity | discriminate].
Qed.

Lemma hexint_minus (s : string) : is_ok (py.hexint (String "-" s)) = false.
Proof. reflexivity. Qed.

Lemma substring_eight (ts : string) :
  String.length ts = 8%nat -> substring 0 8 ts = ts.
Proof. intros L. rewrite <- L. apply substring_whole. Qed.

(** [_print] on the reply to a [0x23] packet: the text after the ten
    fixed characters must be eight characters that [bytes.fromhex]
    accepts. *)
Lemma print_metering_start (s : N) (ts : string) :
  s <> ADDR_CP ->
  _print (mkPacket s ADDR_CP 0x23 ("01" ++ "00000000" ++ ts))
  = Ok tt
  <-> String.length ts = 8%nat /\ is_ok (py.hexint ts) = true.
Proof.
  intros Hs. apply N.eqb_neq in Hs.
  unfold _print, schema, field, fields, field, expect, py.str_slice.
  cbn [cmd dst src dat]. rewrite Hs. dispatch.
  change (substring 0 (4 - 0)%nat ("01" ++ "00000000" ++ ts)) with "0100".
  replace (substring 2 (10 - 2)%nat ("01" ++ "00000000" ++ ts))
    with "00000000" by (destruct ts; reflexivity).
  change (substring 10 (18 - 10)%nat ("01" ++ "00000000" ++ ts))
    with (substring 0 8 ts).
  change (py.hexint "0100") with (@Ok N 256).
  change (py.hexint "00000000") with (@Ok N 0).
  change (String.length ("01" ++ "00000000" ++ ts) =? 18)%nat
    with (String.length ts =? 8)%nat.
  simpl obind.
  destruct (Nat.eqb_spec (String.length ts) 8) as [L|L].
  - rewrite (substring_eight _ L).
    destruct (py.hexint ts); simpl; split; intros H;
      try discriminate; try (destruct H; discriminate); auto.
  - destruct (py.hexint (substring 0 8 ts)); simpl; split; intros H;
      try discriminate; destruct H; contradiction.
Qed.

(** The same for the reply to a [0x26] packet, which has eight fixed
    characters. *)
Lemma print_state_update (s : N) (ts : string) :
  s <> ADDR_CP ->
  _print (mkPacket s ADDR_CP 0x26 ("00000000" ++ ts))
  = Ok tt
  <-> String.length ts = 8%nat /\ is_ok (py.hexint ts) = true.
Proof.
  intros Hs. apply N.eqb_neq in Hs.
  unfold _print, schema, field, fields, field, expect, py.str_slice.
  cbn [cmd dst src dat]. rewrite Hs. dispatch.
  change (substring 0 (4 - 0)%nat ("00000000" ++ ts)) with "0000".
  replace (substring 0 (8 - 0)%nat ("00000000" ++ ts))
    with "00000000" by (destruct ts; reflexivity).
  change (substring 8 (16 - 8)%nat ("00000000" ++ ts))
    with (substring 0 8 ts).
  change (py.hexint "0000") with (@Ok N 0).
  change (py.hexint "00000000") with (@Ok N 0).
  change (String.length ("00000000" ++ ts) =? 16)%nat
    with (String.length ts =? 8)%nat.
  simpl obind.
  destruct (Nat.eqb_spec (String.length ts) 8) as [L|L].
  - rewrite (substring_eight _ L).
    destruct (py.hexint ts); simpl; split; intros H;
      try discriminate; try (destruct H; discriminate); auto.
  - destruct (py.hexint (substring 0 8 ts)); simpl; split; intros H;
      try discriminate; destruct H; contradiction.
Qed.

(** [f"{t:08X}"]: eight digits that read back as [t] exactly for
    [0 <= t < 2^32]. *)
Lemma timestamp_text (t : Z) :
  (String.length (py.format_0X_int 8 t) = 8%nat
   /\ is_ok (py.hexint (py.format_0X_int 8 t)) = true
   <-> (0 <= t < 2 ^ 32)%Z)
  /\ ((0 <= t < 2 ^ 32)%Z ->
      py.hexint (py.format_0X_int 8 t) = Ok (Z.to_N t)
      /\ all_hex_upper (py.format_0X_int 8 t) = true).
Proof.
  unfold py.format_0X_int.
  destruct (Z.ltb_spec t 0) as [Hneg|Hpos].
  - rewrite hexint_minus.
    split; [split|]; intros H; try lia; destruct H; discriminate.
  - destruct (N.lt_ge_cases (Z.to_N t) (16 ^ N.of_nat 8)) as [Hfit|Hwide].
    + destruct (@format_0X_fits 8 (Z.to_N t) ltac:(lia) Hfit) as (L & U & V).
      pose proof (@hexint_even 4 _ _ L V) as R.
      change (16 ^ N.of_nat 8) with 4294967296 in Hfit.
      assert (0 <= t < 2 ^ 32)%Z as Hwin by lia.
      rewrite R. simpl is_ok.
      split; [split; [intros _; exact Hwin
                     | intros _; split; [exact L | reflexivity]]
             | intros _; split; [reflexivity | exact U]].
    + pose proof (@format_0X_wide 8 (Z.to_N t) ltac:(lia) Hwide) as L.
      change (16 ^ N.of_nat 8) with 4294967296 in Hwide.
      split; [split|]; intros H; try lia.
Qed.


